(** * Granola transcript converter: the Markdown renderer of
      [convert_to_markdown.py], embedded and verified.

    The Python functions [sanitize_filename], [format_datetime],
    [format_timestamp], [format_transcript_entries], [calculate_duration],
    [get_transcript_stats] and [generate_markdown] are translated one by one.
    Python values keep their dynamic types, and a Python exception is an
    explicit [Raise] result, so that the absence of exceptions is a theorem
    and not a consequence of the typing of the model. *)

From Stdlib Require Import String Ascii DecimalString.
From Stdlib Require Import ZArith NArith List Bool Lia Permutation Sorted.
Import ListNotations.

(* ===================================================================== *)
(** * Python strings *)
(* ===================================================================== *)

(** A Python [str] is a sequence of Unicode code points; [len], slicing and
    the per-character loops of the source all count code points. *)
Definition char := N.
Definition str := list char.

(** ASCII literals of the source. *)
Definition lit (s : string) : str := map N_of_ascii (list_ascii_of_string s).
Arguments lit : simpl never.

(** [not l] for a string or a list: it is empty. *)
Definition empty {A : Type} (l : list A) : bool :=
  match l with [] => true | _ => false end.

Module PyStr.
Local Open Scope N_scope.

Definition chr_dash : char := 45.
Definition chr_Z : char := 90.
Definition chr_percent : char := 37.
Definition nl : str := [10].

(** [c in s] for a one-character [c]. *)
Definition mem (c : char) (s : str) : bool := existsb (N.eqb c) s.

(** [string.printable]: digits, ASCII letters, punctuation and the six
    ASCII whitespace characters. *)
Definition printable : str :=
  lit "0123456789abcdefghijklmnopqrstuvwxyzABCDEFGHIJKLMNOPQRSTUVWXYZ"
  ++ [33; 34; 35; 36; 37; 38; 39; 40; 41; 42; 43; 44; 45; 46; 47;
      58; 59; 60; 61; 62; 63; 64; 91; 92; 93; 94; 95; 96; 123; 124; 125; 126]
  ++ [32; 9; 10; 13; 11; 12].

(** The nine characters that [sanitize_filename] rejects besides the
    unprintable ones: less-than, greater-than, colon, double quote, slash,
    backslash, vertical bar, question mark, asterisk. *)
Definition unsafe_chars : str := [60; 62; 58; 34; 47; 92; 124; 63; 42].

(** [str.isspace] on one code point, the set that [str.strip()] and
    [str.split()] treat as whitespace. *)
Definition isspace (c : char) : bool :=
  ((9 <=? c) && (c <=? 13)) || ((28 <=? c) && (c <=? 32))
  || (c =? 133) || (c =? 160) || (c =? 5760)
  || ((8192 <=? c) && (c <=? 8202))
  || (c =? 8232) || (c =? 8233) || (c =? 8239) || (c =? 8287) || (c =? 12288).

Fixpoint lstrip_by (p : char -> bool) (s : str) : str :=
  match s with
  | [] => []
  | c :: t => if p c then lstrip_by p t else s
  end.

Definition rstrip_by (p : char -> bool) (s : str) : str :=
  rev (lstrip_by p (rev s)).

Definition strip_by (p : char -> bool) (s : str) : str :=
  rstrip_by p (lstrip_by p s).

(** [s.strip()] *)
Definition strip (s : str) : str := strip_by isspace s.

(** [s.strip(c)] for a one-character argument. *)
Definition strip_char (c : char) (s : str) : str := strip_by (N.eqb c) s.

(** [s.split()]: the maximal runs of non-whitespace characters.  [cur] is
    the run being read, reversed. *)
Fixpoint split_from (cur : str) (s : str) : list str :=
  match s with
  | [] => if empty cur then [] else [rev cur]
  | c :: t =>
      if isspace c
      then (if empty cur then split_from [] t else rev cur :: split_from [] t)
      else split_from (c :: cur) t
  end.

Definition split (s : str) : list str := split_from [] s.

(** [s.replace(c, new)] for a one-character [c]: every occurrence. *)
Definition replace_char (c : char) (new : str) (s : str) : str :=
  flat_map (fun x => if x =? c then new else [x]) s.

(** [s.replace('--', '-')]: left to right, occurrences do not overlap. *)
Fixpoint replace_dashdash (s : str) : str :=
  match s with
  | a :: ((b :: t) as s') =>
      if (a =? chr_dash) && (b =? chr_dash)
      then chr_dash :: replace_dashdash t
      else a :: replace_dashdash s'
  | _ => s
  end.

(** ['--' in s] *)
Fixpoint has_dashdash (s : str) : bool :=
  match s with
  | a :: ((b :: _) as s') =>
      ((a =? chr_dash) && (b =? chr_dash)) || has_dashdash s'
  | _ => false
  end.

(** [s.endswith(c)] for a one-character [c]. *)
Definition endswith_char (c : char) (s : str) : bool :=
  match rev s with
  | x :: _ => x =? c
  | [] => false
  end.

(** [sep.join(lines)] *)
Fixpoint join (sep : str) (lines : list str) : str :=
  match lines with
  | [] => []
  | [l] => l
  | l :: rest => l ++ sep ++ join sep rest
  end.

(** [a < b] on strings: lexicographic on code points. *)
Fixpoint ltb (a b : str) : bool :=
  match a, b with
  | _, [] => false
  | [], _ :: _ => true
  | x :: a', y :: b' => (x <? y) || ((x =? y) && ltb a' b')
  end.

(** [str(n)] for an integer. *)
Definition of_Z (z : Z) : str := lit (NilZero.string_of_int (Z.to_int z)).

(** The zero-padded two-digit fields of [strftime] ([%d], [%H], [%I],
    [%M], [%S]) and the four-digit [%Y]. *)
Definition pad_left (width : nat) (s : str) : str :=
  repeat 48 (width - length s)%nat ++ s.

End PyStr.

(* ===================================================================== *)
(** * sanitize_filename *)
(* ===================================================================== *)

(** The loop [while '--' in sanitized: sanitized = sanitized.replace('--', '-')].
    Every pass that runs shortens the string, so its length bounds the
    number of passes; [collapse_dashes_exits] shows the loop always leaves
    through its condition. *)
Fixpoint collapse_loop (fuel : nat) (sanitized : str) : str :=
  match fuel with
  | O => sanitized
  | S fuel' =>
      if PyStr.has_dashdash sanitized
      then collapse_loop fuel' (PyStr.replace_dashdash sanitized)
      else sanitized
  end.

Definition collapse_dashes (sanitized : str) : str :=
  collapse_loop (length sanitized) sanitized.

Definition sanitize_char (c : char) : char :=
  if PyStr.mem c PyStr.printable && negb (PyStr.mem c PyStr.unsafe_chars)
  then c else PyStr.chr_dash.

Definition sanitize_filename (filename : str) : str :=
  if empty filename then lit "untitled"
  else
    let sanitized := map sanitize_char filename in
    let sanitized := collapse_dashes sanitized in
    let sanitized := firstn 100 (PyStr.strip_char PyStr.chr_dash sanitized) in
    if empty sanitized then lit "untitled" else sanitized.

(** One pass reference for the loop: a dash is dropped when another dash
    follows it. *)
Fixpoint squeeze_dashes (s : str) : str :=
  match s with
  | a :: ((b :: _) as s') =>
      if ((a =? PyStr.chr_dash) && (b =? PyStr.chr_dash))%N
      then squeeze_dashes s'
      else a :: squeeze_dashes s'
  | _ => s
  end.

(* ===================================================================== *)
(** * Python values and exceptions *)
(* ===================================================================== *)

(** The exceptions the modelled code can meet. *)
Inductive exn := AttributeError | TypeError | ValueError | IndexError.

Inductive result (A : Type) : Type :=
| Ok (a : A)
| Raise (e : exn).
Arguments Ok {A} a.
Arguments Raise {A} e.

Definition bind {A B : Type} (c : result A) (k : A -> result B) : result B :=
  match c with
  | Ok a => k a
  | Raise e => Raise e
  end.

Notation "x <- c ;; k" := (bind c (fun x => k))
  (at level 61, c at next level, right associativity).

(** [try: c  except Exception: fallback] *)
Definition try_except {A : Type} (c : result A) (fallback : A) : A :=
  match c with
  | Ok a => a
  | Raise _ => fallback
  end.

(** The value of a field of a deserialised JSON object: [null], an integer
    or a string.  The downloader writes [null] itself (for an absent
    [updated_at]); fractional numbers, booleans and nested containers in
    these fields are outside the model. *)
Inductive value :=
| VNone
| VInt (z : Z)
| VStr (s : str).

Module Py.

(** [if v:] *)
Definition truthy (v : value) : bool :=
  match v with
  | VNone => false
  | VInt z => negb (z =? 0)%Z
  | VStr s => negb (empty s)
  end.

(** [a == b] *)
Definition eqb (a b : value) : bool :=
  match a, b with
  | VNone, VNone => true
  | VInt x, VInt y => (x =? y)%Z
  | VStr s, VStr t => if list_eq_dec N.eq_dec s t then true else false
  | _, _ => false
  end.

(** [a < b]; ordering is defined between two integers and between two
    strings only. *)
Definition lt (a b : value) : result bool :=
  match a, b with
  | VInt x, VInt y => Ok (x <? y)%Z
  | VStr s, VStr t => Ok (PyStr.ltb s t)
  | _, _ => Raise TypeError
  end.

(** [a > b] *)
Definition gt (a b : value) : result bool := lt b a.

(** The text an f-string puts for [{v}]. *)
Definition format (v : value) : str :=
  match v with
  | VNone => lit "None"
  | VInt z => PyStr.of_Z z
  | VStr s => s
  end.

(** The receiver of a [str] method ([.strip], [.split], [.replace],
    [.endswith]): any other value has no such attribute. *)
Definition str_method (v : value) : result str :=
  match v with
  | VStr s => Ok s
  | _ => Raise AttributeError
  end.

(** [d.get(key, default)], the key being present with value [v] or absent. *)
Definition get (field : option value) (default : value) : value :=
  match field with
  | Some v => v
  | None => default
  end.

(** [key in d] *)
Definition contains (field : option value) : bool :=
  match field with
  | Some _ => true
  | None => false
  end.

(** [min(l)] and [max(l)] of a non-empty list: the first extremal item. *)
Fixpoint min_from (best : value) (l : list value) : result value :=
  match l with
  | [] => Ok best
  | item :: l' =>
      b <- lt item best;;
      min_from (if b then item else best) l'
  end.

Fixpoint max_from (best : value) (l : list value) : result value :=
  match l with
  | [] => Ok best
  | item :: l' =>
      b <- gt item best;;
      max_from (if b then item else best) l'
  end.

Definition min (l : list value) : result value :=
  match l with
  | [] => Raise ValueError
  | first :: l' => min_from first l'
  end.

Definition max (l : list value) : result value :=
  match l with
  | [] => Raise ValueError
  | first :: l' => max_from first l'
  end.

(** [s.add(v)] on a set kept as the list of its elements in insertion
    order; every value of the model is hashable. *)
Definition set_add (v : value) (s : list value) : list value :=
  if existsb (eqb v) s then s else s ++ [v].

Section Sorted.
Variable A : Type.
Variable key : A -> value.

(** [sorted(l, key=key)].  The sort is stable and uses [<] on the keys
    only; it raises [TypeError] exactly when the list has two or more
    items and their keys are not all integers or all strings. *)
Fixpoint insert (x : A) (l : list A) : result (list A) :=
  match l with
  | [] => Ok [x]
  | y :: l' =>
      b <- lt (key y) (key x);;
      if b then (r <- insert x l';; Ok (y :: r)) else Ok (x :: l)
  end.

Fixpoint sorted (l : list A) : result (list A) :=
  match l with
  | [] => Ok []
  | x :: l' => r <- sorted l';; insert x r
  end.
End Sorted.
Arguments insert {A} key x l.
Arguments sorted {A} key l.

End Py.

(* ===================================================================== *)
(** * The datetime library, as far as the renderer uses it *)
(* ===================================================================== *)

Module Datetime.
Local Open Scope Z_scope.

(** [tzinfo] is [None] for a naive datetime, and otherwise the fixed UTC
    offset in microseconds. *)
Record datetime := mkdatetime {
  year : Z; month : Z; day : Z;
  hour : Z; minute : Z; second : Z; microsecond : Z;
  tzinfo : option Z
}.

(** A timedelta in its normal form: [0 <= seconds < 86400] and
    [0 <= microseconds < 1000000], the sign carried by [days]. *)
Record timedelta := mktimedelta { days : Z; seconds : Z; microseconds : Z }.

(** [timedelta(days=d, seconds=s, microseconds=us)] *)
Definition timedelta_of (d s us : Z) : timedelta :=
  let total := (d * 86400 + s) * 1000000 + us in
  let whole := total / 1000000 in
  {| days := whole / 86400;
     seconds := whole mod 86400;
     microseconds := total mod 1000000 |}.

Definition is_leap (y : Z) : bool :=
  (y mod 4 =? 0) && (negb (y mod 100 =? 0) || (y mod 400 =? 0)).

Definition days_in_month (y m : Z) : Z :=
  match m with
  | 1 => 31 | 2 => if is_leap y then 29 else 28 | 3 => 31 | 4 => 30
  | 5 => 31 | 6 => 30 | 7 => 31 | 8 => 31 | 9 => 30 | 10 => 31
  | 11 => 30 | 12 => 31 | _ => 0
  end.

Definition days_before_year (y : Z) : Z :=
  let y' := y - 1 in y' * 365 + y' / 4 - y' / 100 + y' / 400.

Definition days_before_month (y m : Z) : Z :=
  match m with
  | 1 => 0 | 2 => 31 | 3 => 59 | 4 => 90 | 5 => 120 | 6 => 151
  | 7 => 181 | 8 => 212 | 9 => 243 | 10 => 273 | 11 => 304 | 12 => 334
  | _ => 0
  end + (if (2 <? m) && is_leap y then 1 else 0).

(** [dt.toordinal()]: 1 January of year 1 is day 1. *)
Definition toordinal (dt : datetime) : Z :=
  days_before_year (year dt) + days_before_month (year dt) (month dt) + day dt.

(** [dt.weekday()]: Monday is 0. *)
Definition weekday (dt : datetime) : Z := (toordinal dt + 6) mod 7.

(** The range checks of the [datetime] and [timezone] constructors. *)
Definition valid (dt : datetime) : bool :=
  (1 <=? year dt) && (year dt <=? 9999)
  && (1 <=? month dt) && (month dt <=? 12)
  && (1 <=? day dt) && (day dt <=? days_in_month (year dt) (month dt))
  && (0 <=? hour dt) && (hour dt <=? 23)
  && (0 <=? minute dt) && (minute dt <=? 59)
  && (0 <=? second dt) && (second dt <=? 59)
  && (0 <=? microsecond dt) && (microsecond dt <=? 999999)
  && match tzinfo dt with
     | None => true
     | Some off => (-86400000000 <? off) && (off <? 86400000000)
     end.

(** ** fromisoformat

    The grammar documented for [datetime.fromisoformat]:
    [YYYY-MM-DD[*HH[:MM[:SS[.fff[fff]]]][+HH:MM[:SS[.ffffff]]]]], where [*]
    is any single character.  Later Python versions accept further
    ISO 8601 forms on top of these. *)

Definition digit (c : char) : option Z :=
  if ((48 <=? c) && (c <=? 57))%N then Some (Z.of_N (c - 48)) else None.

(** Exactly [n] decimal digits at the head of [s]. *)
Fixpoint parse_digits (n : nat) (acc : Z) (s : str) : option (Z * str) :=
  match n with
  | O => Some (acc, s)
  | S n' =>
      match s with
      | c :: t =>
          match digit c with
          | Some d => parse_digits n' (acc * 10 + d) t
          | None => None
          end
      | [] => None
      end
  end.

Definition chr_colon : char := 58%N.
Definition chr_dot : char := 46%N.
Definition chr_plus : char := 43%N.
Definition chr_minus : char := 45%N.

(** [YYYY-MM-DD] at the head of [s]. *)
Definition parse_isoformat_date (s : str) : option (Z * Z * Z * str) :=
  match parse_digits 4 0 s with
  | Some (y, c1 :: s1) =>
      if (c1 =? chr_minus)%N then
        match parse_digits 2 0 s1 with
        | Some (m, c2 :: s2) =>
            if (c2 =? chr_minus)%N then
              match parse_digits 2 0 s2 with
              | Some (d, rest) => Some (y, m, d, rest)
              | None => None
              end
            else None
        | _ => None
        end
      else None
  | _ => None
  end.

(** [fff] or [ffffff], the whole of [s]. *)
Definition parse_fraction (s : str) : option Z :=
  match parse_digits (length s) 0 s with
  | Some (us, _) =>
      if (length s =? 3)%nat then Some (us * 1000)
      else if (length s =? 6)%nat then Some us
      else None
  | None => None
  end.

(** [HH[:MM[:SS[.fff[fff]]]]], the whole of [s]. *)
Definition parse_hh_mm_ss_ff (s : str) : option (Z * Z * Z * Z) :=
  match parse_digits 2 0 s with
  | Some (hh, []) => Some (hh, 0, 0, 0)
  | Some (hh, c1 :: s1) =>
      if (c1 =? chr_colon)%N then
        match parse_digits 2 0 s1 with
        | Some (mm, []) => Some (hh, mm, 0, 0)
        | Some (mm, c2 :: s2) =>
            if (c2 =? chr_colon)%N then
              match parse_digits 2 0 s2 with
              | Some (ss, []) => Some (hh, mm, ss, 0)
              | Some (ss, c3 :: s3) =>
                  if (c3 =? chr_dot)%N then
                    match parse_fraction s3 with
                    | Some us => Some (hh, mm, ss, us)
                    | None => None
                    end
                  else None
              | None => None
              end
            else None
        | None => None
        end
      else None
  | None => None
  end.

(** The time string cut at its first [+] or [-]: the time of day, and the
    sign and digits of the offset when there is one. *)
Fixpoint split_offset (s : str) : str * option (Z * str) :=
  match s with
  | [] => ([], None)
  | c :: t =>
      if (c =? chr_plus)%N then ([], Some (1, t))
      else if (c =? chr_minus)%N then ([], Some (-1, t))
      else let (time, off) := split_offset t in (c :: time, off)
  end.

(** [+HH:MM], [+HH:MM:SS] or [+HH:MM:SS.ffffff] after the sign. *)
Definition parse_offset (sign : Z) (s : str) : option Z :=
  if ((length s =? 5) || (length s =? 8) || (length s =? 15))%nat then
    match parse_hh_mm_ss_ff s with
    | Some (hh, mm, ss, us) =>
        Some (sign * ((hh * 3600 + mm * 60 + ss) * 1000000 + us))
    | None => None
    end
  else None.

Definition parse_isoformat_time (s : str)
  : option (Z * Z * Z * Z * option Z) :=
  let (time, off) := split_offset s in
  match parse_hh_mm_ss_ff time with
  | Some comps =>
      match off with
      | None => Some (comps, None)
      | Some (sign, tzstr) =>
          match parse_offset sign tzstr with
          | Some o => Some (comps, Some o)
          | None => None
          end
      end
  | None => None
  end.

Definition parse_isoformat (s : str) : option datetime :=
  match parse_isoformat_date s with
  | Some (y, m, d, []) => Some (mkdatetime y m d 0 0 0 0 None)
  | Some (y, m, d, _ :: tstr) =>
      match parse_isoformat_time tstr with
      | Some (hh, mm, ss, us, tz) => Some (mkdatetime y m d hh mm ss us tz)
      | None => None
      end
  | None => None
  end.

(** [datetime.fromisoformat(s)]: every rejection is a [ValueError]. *)
Definition fromisoformat (s : str) : result datetime :=
  match parse_isoformat s with
  | Some dt => if valid dt then Ok dt else Raise ValueError
  | None => Raise ValueError
  end.

(** ** strftime *)

Definition weekday_name (w : Z) : str :=
  match w with
  | 0 => lit "Monday" | 1 => lit "Tuesday" | 2 => lit "Wednesday"
  | 3 => lit "Thursday" | 4 => lit "Friday" | 5 => lit "Saturday"
  | _ => lit "Sunday"
  end.

Definition month_name (m : Z) : str :=
  match m with
  | 1 => lit "January" | 2 => lit "February" | 3 => lit "March"
  | 4 => lit "April" | 5 => lit "May" | 6 => lit "June"
  | 7 => lit "July" | 8 => lit "August" | 9 => lit "September"
  | 10 => lit "October" | 11 => lit "November" | _ => lit "December"
  end.

Definition two_digits (z : Z) : str := PyStr.pad_left 2 (PyStr.of_Z z).

(** The hour of the 12-hour clock, [%I]. *)
Definition hour12 (h : Z) : Z := if h mod 12 =? 0 then 12 else h mod 12.

(** One conversion of the format, in the C locale; the letter [c] follows
    the percent sign.  The conversions the renderer uses are listed, any
    other letter is kept as it stands. *)
Definition directive (c : char) (dt : datetime) : str :=
  if (c =? 65)%N then weekday_name (weekday dt)              (* %A *)
  else if (c =? 66)%N then month_name (month dt)             (* %B *)
  else if (c =? 100)%N then two_digits (day dt)              (* %d *)
  else if (c =? 89)%N then PyStr.pad_left 4 (PyStr.of_Z (year dt)) (* %Y *)
  else if (c =? 73)%N then two_digits (hour12 (hour dt))     (* %I *)
  else if (c =? 72)%N then two_digits (hour dt)              (* %H *)
  else if (c =? 77)%N then two_digits (minute dt)            (* %M *)
  else if (c =? 83)%N then two_digits (second dt)            (* %S *)
  else if (c =? 112)%N then
    (if hour dt <? 12 then lit "AM" else lit "PM")           (* %p *)
  else [PyStr.chr_percent; c].

(** [dt.strftime(fmt)] *)
Fixpoint strftime (fmt : str) (dt : datetime) : str :=
  match fmt with
  | [] => []
  | c :: rest =>
      if (c =? PyStr.chr_percent)%N then
        match rest with
        | d :: rest' => directive d dt ++ strftime rest' dt
        | [] => [c]
        end
      else c :: strftime rest dt
  end.

(** ** Subtraction

    [a - b] on datetimes.  Two naive operands, or two operands with the
    same offset, give the difference of the wall clocks; two aware
    operands are compared in UTC; one naive and one aware operand raise
    [TypeError]. *)
Definition sub (a b : datetime) : result timedelta :=
  let days1 := toordinal a in
  let days2 := toordinal b in
  let secs1 := second a + minute a * 60 + hour a * 3600 in
  let secs2 := second b + minute b * 60 + hour b * 3600 in
  let us := microsecond a - microsecond b in
  match tzinfo a, tzinfo b with
  | None, None => Ok (timedelta_of (days1 - days2) (secs1 - secs2) us)
  | Some myoff, Some otoff =>
      Ok (timedelta_of (days1 - days2) (secs1 - secs2) (us + otoff - myoff))
  | _, _ => Raise TypeError
  end.

End Datetime.

(* ===================================================================== *)
(** * The data model *)
(* ===================================================================== *)

(** One transcript entry, a JSON object.  Each field is the state of one
    key: [None] when the key is absent, [Some v] when it is present with
    value [v].  Keys the renderer never reads are left out. *)
Record entry := mkentry {
  text : option value;
  source : option value;
  speaker : option value;
  start_timestamp : option value;
  end_timestamp : option value;
  sequence_number : option value
}.

(** One meeting record, the object read from a transcript file. *)
Record transcript_data := mkrecord {
  title : option value;
  created_at : option value;
  updated_at : option value;
  document_id : option value;
  transcript_entries : option (list entry)
}.

(** The dictionary returned by [get_transcript_stats]. *)
Record stats := mkstats { total_entries : Z; speakers : Z; words : Z }.

(* ===================================================================== *)
(** * The renderer *)
(* ===================================================================== *)

(** [v.replace('Z', '+00:00')] *)
Definition Z_to_utc (v : value) : result str :=
  s <- Py.str_method v;; Ok (PyStr.replace_char PyStr.chr_Z (lit "+00:00") s).

Definition format_datetime (iso_string : value) : value :=
  try_except
    (s <- Z_to_utc iso_string;;
     dt <- Datetime.fromisoformat s;;
     Ok (VStr (Datetime.strftime (lit "%A, %B %d, %Y at %I:%M %p") dt)))
    iso_string.

Definition format_timestamp (timestamp_str : value) : value :=
  try_except
    (s <- Py.str_method timestamp_str;;
     dt <- (if PyStr.endswith_char PyStr.chr_Z s
            then s' <- Z_to_utc timestamp_str;; Datetime.fromisoformat s'
            else Datetime.fromisoformat s);;
     Ok (VStr (Datetime.strftime (lit "%H:%M:%S") dt)))
    timestamp_str.

(** The [try] block that chooses the order of the entries. *)
Definition sort_entries (entries : list entry) : result (list entry) :=
  let attempt :=
    match entries with
    | [] => Raise IndexError
    | first :: _ =>
        if Py.contains (sequence_number first) then
          Py.sorted (fun x => Py.get (sequence_number x) (VInt 0)) entries
        else if Py.contains (start_timestamp first) then
          Py.sorted (fun x => Py.get (start_timestamp x) (VStr [])) entries
        else Ok entries
    end in
  match attempt with
  | Ok sorted_entries => Ok sorted_entries
  | Raise IndexError | Raise TypeError => Ok entries
  | Raise e => Raise e
  end.

(** One turn of the loop over the sorted entries: the line it appends, or
    [None] when it reaches [continue]. *)
Definition format_entry (e : entry) : result (option str) :=
  raw <- Py.str_method (Py.get (text e) (VStr []));;
  let text := PyStr.strip raw in
  if empty text then Ok None
  else
    let source := Py.get (source e) (VStr []) in
    let speaker := Py.get (speaker e) (VStr []) in
    let speaker_name :=
      if Py.eqb source (VStr (lit "microphone")) then VStr (lit "me")
      else if Py.truthy speaker then speaker
      else VStr (lit "them") in
    let start_timestamp := Py.get (start_timestamp e) VNone in
    if Py.truthy start_timestamp then
      let timestamp := format_timestamp start_timestamp in
      Ok (Some (lit "**[" ++ Py.format timestamp ++ lit "] "
                ++ Py.format speaker_name ++ lit ":** " ++ text))
    else
      Ok (Some (lit "**" ++ Py.format speaker_name ++ lit ":** " ++ text)).

Fixpoint format_lines (sorted_entries : list entry) : result (list str) :=
  match sorted_entries with
  | [] => Ok []
  | e :: rest =>
      line <- format_entry e;;
      formatted_lines <- format_lines rest;;
      Ok (match line with
          | Some l => l :: formatted_lines
          | None => formatted_lines
          end)
  end.

Definition format_transcript_entries (entries : list entry) : result str :=
  if empty entries then Ok (lit "*No transcript available*")
  else
    sorted_entries <- sort_entries entries;;
    formatted_lines <- format_lines sorted_entries;;
    Ok (PyStr.join (PyStr.nl ++ PyStr.nl) formatted_lines).

(** ["s"] when [plural] holds and the empty string otherwise, the
    conditional inside the f-strings of [calculate_duration]. *)
Definition suffix_s (plural : bool) : str := if plural then lit "s" else [].

(** The two f-strings that end [calculate_duration]. *)
Definition duration_text (hours minutes : Z) : str :=
  if (hours >? 0)%Z then
    PyStr.of_Z hours ++ lit " hour" ++ suffix_s (hours >? 1)%Z ++ lit " "
    ++ PyStr.of_Z minutes ++ lit " minute" ++ suffix_s (negb (minutes =? 1)%Z)
  else
    PyStr.of_Z minutes ++ lit " minute" ++ suffix_s (negb (minutes =? 1)%Z).

(** [[e.get(key) for e in entries if e.get(key)]] *)
Definition present (key : entry -> option value) (entries : list entry)
  : list value :=
  filter Py.truthy (map (fun e => Py.get (key e) VNone) entries).

(** The body of the [try] of [calculate_duration]. *)
Definition calculate_duration_try (entries : list entry) : result str :=
  if empty entries then Ok (lit "Unknown")
  else
    let start_times := present start_timestamp entries in
    let end_times := present end_timestamp entries in
    if empty start_times || empty end_times then Ok (lit "Unknown")
    else
      first <- Py.min start_times;;
      first_utc <- Z_to_utc first;;
      start_dt <- Datetime.fromisoformat first_utc;;
      last <- Py.max end_times;;
      last_utc <- Z_to_utc last;;
      end_dt <- Datetime.fromisoformat last_utc;;
      duration <- Datetime.sub end_dt start_dt;;
      let hours := (Datetime.seconds duration / 3600)%Z in
      let minutes := ((Datetime.seconds duration mod 3600) / 60)%Z in
      Ok (duration_text hours minutes).

Definition calculate_duration (entries : list entry) : str :=
  try_except (calculate_duration_try entries) (lit "Unknown").

(** The loop of [get_transcript_stats], carrying the set of speakers and
    the running number of words. *)
Fixpoint stats_loop (entries : list entry) (speakers : list value)
    (total_words : Z) : result (list value * Z) :=
  match entries with
  | [] => Ok (speakers, total_words)
  | e :: rest =>
      let source := Py.get (source e) (VStr []) in
      let speaker := Py.get (speaker e) (VStr []) in
      let speakers :=
        if Py.eqb source (VStr (lit "microphone"))
        then Py.set_add (VStr (lit "me")) speakers
        else if Py.truthy speaker
        then Py.set_add speaker speakers
        else Py.set_add (VStr (lit "them")) speakers in
      text <- Py.str_method (Py.get (text e) (VStr []));;
      stats_loop rest speakers
                 (total_words + Z.of_nat (length (PyStr.split text)))
  end.

Definition get_transcript_stats (entries : list entry) : result stats :=
  if empty entries then Ok (mkstats 0 0 0)
  else
    let total_entries := Z.of_nat (length entries) in
    r <- stats_loop entries [] 0;;
    let (speakers, total_words) := r in
    Ok (mkstats total_entries (Z.of_nat (length speakers)) total_words).

(** The triple-quoted f-string of [generate_markdown], line by line; the
    text ends with a newline. *)
Definition markdown_template (title formatted_created formatted_updated
    duration document_id total speakers_n words_n formatted_transcript : str)
  : str :=
  PyStr.join PyStr.nl
    [ lit "# " ++ title;
      [];
      lit "**Date:** " ++ formatted_created;
      lit "**Updated:** " ++ formatted_updated;
      lit "**Duration:** " ++ duration;
      lit "**Document ID:** `" ++ document_id ++ lit "`";
      [];
      lit "---";
      [];
      lit "## Meeting Statistics";
      [];
      lit "- **Total Entries:** " ++ total;
      lit "- **Speakers:** " ++ speakers_n;
      lit "- **Total Words:** " ++ words_n;
      [];
      lit "---";
      [];
      lit "## Transcript";
      [];
      formatted_transcript;
      [];
      lit "---";
      [];
      lit "*This transcript was downloaded and converted from Granola AI*" ]
  ++ PyStr.nl.

Definition generate_markdown (data : transcript_data) : result str :=
  let title := Py.get (title data) (VStr (lit "Untitled Meeting")) in
  let created_at := Py.get (created_at data) (VStr []) in
  let updated_at := Py.get (updated_at data) (VStr []) in
  let document_id := Py.get (document_id data) (VStr []) in
  let entries :=
    match transcript_entries data with Some l => l | None => [] end in
  let formatted_created :=
    if Py.truthy created_at then format_datetime created_at
    else VStr (lit "Unknown") in
  let formatted_updated :=
    if Py.truthy updated_at then format_datetime updated_at
    else VStr (lit "Unknown") in
  st <- get_transcript_stats entries;;
  let duration := calculate_duration entries in
  formatted_transcript <- format_transcript_entries entries;;
  Ok (markdown_template
        (Py.format title) (Py.format formatted_created)
        (Py.format formatted_updated) duration (Py.format document_id)
        (PyStr.of_Z (total_entries st)) (PyStr.of_Z (speakers st))
        (PyStr.of_Z (words st)) formatted_transcript).

(** ** Vocabulary of the statements about [sanitize_filename] *)

Definition is_dash (c : char) : bool := (c =? PyStr.chr_dash)%N.

Definition starts_with_dash (s : str) : bool :=
  match s with
  | c :: _ => is_dash c
  | [] => false
  end.

(** A character that [sanitize_filename] lets through. *)
Definition filename_safe (c : char) : bool :=
  PyStr.mem c PyStr.printable && negb (PyStr.mem c PyStr.unsafe_chars).

(** ** Vocabulary of the statements about the renderer *)

(** The attribution rule: [me] for the source [microphone], otherwise the
    speaker when it is not empty, otherwise [them].  The loop of the
    transcript body and the loop of the statistics each write the rule out
    in place; the theorems compare both with this one. *)
Definition speaker_name (e : entry) : value :=
  let source := Py.get (source e) (VStr []) in
  let speaker := Py.get (speaker e) (VStr []) in
  if Py.eqb source (VStr (lit "microphone")) then VStr (lit "me")
  else if Py.truthy speaker then speaker
  else VStr (lit "them").

(** A field that is absent or holds a string, and one that is absent or
    holds an integer. *)
Definition str_field (f : option value) : bool :=
  match f with
  | None | Some (VStr _) => true
  | Some _ => false
  end.

Definition int_field (f : option value) : bool :=
  match f with
  | None | Some (VInt _) => true
  | Some _ => false
  end.

(** A structurally valid entry: every key that is present has the type
    of the input contract. *)
Definition entry_ok (e : entry) : bool :=
  str_field (text e) && str_field (source e) && str_field (speaker e)
  && str_field (start_timestamp e) && str_field (end_timestamp e)
  && int_field (sequence_number e).

(** A structurally valid meeting record. *)
Definition record_ok (data : transcript_data) : bool :=
  str_field (title data) && str_field (created_at data)
  && str_field (updated_at data) && str_field (document_id data)
  && match transcript_entries data with
     | Some entries => forallb entry_ok entries
     | None => true
     end.

(** The sort keys, a missing [sequence_number] counting as 0 and a missing
    [start_timestamp] as the empty string. *)
Definition seq_key (e : entry) : Z :=
  match sequence_number e with
  | Some (VInt z) => z
  | _ => 0%Z
  end.

Definition ts_key (e : entry) : str :=
  match start_timestamp e with
  | Some (VStr s) => s
  | _ => []
  end.

(** [a] may stand before [b] in ascending order of the key. *)
Definition seq_ascending (a b : entry) : Prop := (seq_key a <= seq_key b)%Z.
Definition ts_ascending (a b : entry) : Prop :=
  PyStr.ltb (ts_key b) (ts_key a) = false.

(** The text of an entry is empty or only whitespace. *)
Definition blank (e : entry) : bool :=
  match Py.get (text e) (VStr []) with
  | VStr s => empty (PyStr.strip s)
  | _ => false
  end.

(** The line of the transcript body for an entry under the attribution
    rule: the start timestamp in brackets when there is one, the speaker,
    and the stripped text. *)
Definition line_of (e : entry) : str :=
  let shown :=
    match Py.get (text e) (VStr []) with
    | VStr s => PyStr.strip s
    | _ => []
    end in
  let stamp := Py.get (start_timestamp e) VNone in
  if Py.truthy stamp then
    lit "**[" ++ Py.format (format_timestamp stamp) ++ lit "] "
    ++ Py.format (speaker_name e) ++ lit ":** " ++ shown
  else lit "**" ++ Py.format (speaker_name e) ++ lit ":** " ++ shown.

(** The two entries of the ordering example. *)
Definition entry_a1 : entry :=
  mkentry (Some (VStr (lit "a"))) None None None None (Some (VInt 1)).
Definition entry_b2 : entry :=
  mkentry (Some (VStr (lit "b"))) None None None None (Some (VInt 2)).

(** An entry whose text is the empty string, and one whose text is two
    spaces. *)
Definition entry_empty_text : entry :=
  mkentry (Some (VStr [])) None None None None None.
Definition entry_spaces : entry :=
  mkentry (Some (VStr (lit "  "))) (Some (VStr (lit "microphone"))) None
          None None None.

(** ** Vocabulary of the statements about the statistics *)

Definition value_eq_dec (a b : value) : {a = b} + {a <> b}.
Proof.
  decide equality; [apply Z.eq_dec | apply (list_eq_dec N.eq_dec)].
Defined.

(** The distinct speakers of a list of entries under the rule of the
    transcript body. *)
Definition distinct_speakers (entries : list entry) : list value :=
  nodup value_eq_dec (map speaker_name entries).

(** The number of whitespace-separated tokens of a text, a missing text
    counting as the empty string. *)
Definition token_count (e : entry) : Z :=
  match Py.get (text e) (VStr []) with
  | VStr s => Z.of_nat (length (PyStr.split s))
  | _ => 0%Z
  end.

Definition total_tokens (entries : list entry) : Z :=
  fold_right (fun e n => (token_count e + n)%Z) 0%Z entries.

(** Entries for the examples: a microphone entry that also names a
    speaker, a named remote speaker, and an anonymous one with no text. *)
Definition entry_mic : entry :=
  mkentry (Some (VStr (lit "hello there"))) (Some (VStr (lit "microphone")))
          (Some (VStr (lit "Alice"))) None None None.
Definition entry_bob : entry :=
  mkentry (Some (VStr (lit " good  morning all "))) (Some (VStr (lit "system")))
          (Some (VStr (lit "Bob"))) None None None.
Definition entry_anon : entry :=
  mkentry None None (Some (VStr [])) None None None.

(** ** Vocabulary of the statements about the document *)

(** The text of every entry is a string or is missing. *)
Definition texts_ok (entries : list entry) : bool :=
  forallb (fun e => str_field (text e)) entries.

(** The entries of a record, [data.get('transcript_entries', [])]. *)
Definition entries_of (data : transcript_data) : list entry :=
  match transcript_entries data with
  | Some l => l
  | None => []
  end.

(** The date shown for one of the two date keys:
    [format_datetime(x) if x else 'Unknown'] with [x = data.get(key, '')]. *)
Definition displayed_date (field : option value) : value :=
  if Py.truthy (Py.get field (VStr []))
  then format_datetime (Py.get field (VStr []))
  else VStr (lit "Unknown").

(** The first line of a text, without its newline. *)
Fixpoint first_line (s : str) : str :=
  match s with
  | [] => []
  | c :: t => if (c =? 10)%N then [] else c :: first_line t
  end.

(** A record with an empty title and nothing else, and the empty record. *)
Definition record_empty_title : transcript_data :=
  mkrecord (Some (VStr [])) None None None None.
Definition record_no_keys : transcript_data :=
  mkrecord None None None None None.

(** A record with one entry whose text is [null], and a full record. *)
Definition record_null_text : transcript_data :=
  mkrecord None None None None
           (Some [mkentry (Some VNone) None None None None None]).
Definition record_sample : transcript_data :=
  mkrecord (Some (VStr (lit "Weekly sync")))
           (Some (VStr (lit "2024-03-15T09:30:00Z")))
           (Some VNone)
           (Some (VStr (lit "doc-1")))
           (Some [entry_bob; entry_spaces; entry_mic]).
Definition record_untitled : transcript_data :=
  mkrecord None (Some (VStr (lit "2024-03-15T09:30:00Z"))) None None
           (Some [entry_bob; entry_spaces; entry_mic]).

(** ** Vocabulary of the statements about the duration *)



(** The strings held by a list of values. *)
Definition is_VStr (v : value) : bool :=
  match v with VStr _ => true | _ => false end.

(** [m] is a least, respectively greatest, string of [l] in lexicographic
    order. *)
Definition str_minimum (m : str) (l : list value) : Prop :=
  In (VStr m) l /\ forall s, In (VStr s) l -> PyStr.ltb s m = false.
Definition str_maximum (m : str) (l : list value) : Prop :=
  In (VStr m) l /\ forall s, In (VStr s) l -> PyStr.ltb m s = false.

(** What [calculate_duration] makes of the two chosen timestamps. *)
Definition duration_between (first last : str) : str :=
  match Datetime.fromisoformat
          (PyStr.replace_char PyStr.chr_Z (lit "+00:00") first),
        Datetime.fromisoformat
          (PyStr.replace_char PyStr.chr_Z (lit "+00:00") last) with
  | Ok start_dt, Ok end_dt =>
      match Datetime.sub end_dt start_dt with
      | Ok duration =>
          duration_text (Datetime.seconds duration / 3600)%Z
                        ((Datetime.seconds duration mod 3600) / 60)%Z
      | Raise _ => lit "Unknown"
      end
  | _, _ => lit "Unknown"
  end.

(** Entries with timestamps, for the examples. *)
Definition timed (first last : string) : entry :=
  mkentry (Some (VStr (lit "hello"))) None None
          (Some (VStr (lit first))) (Some (VStr (lit last))) None.
Definition entry_span : entry :=
  timed "2024-01-01T10:00:00Z" "2024-01-01T11:45:00Z".
Definition entry_25_hours : entry :=
  timed "2024-01-01T10:00:00Z" "2024-01-02T11:00:00Z".
Definition entry_backwards : entry :=
  timed "2024-01-01T10:00:00Z" "2024-01-01T09:00:00Z".

(* ===================================================================== *)
(** * The downloaders *)
(* ===================================================================== *)

(** What [download_transcripts.py] and [download_meetings.py] use of the
    datetime library on top of the renderer's part. *)
Module DatetimeMore.
Local Open Scope Z_scope.

(** [strftime] with the conversion [%m], the month as two digits, which
    the downloaders need for [%Y-%m-%d]. *)
Definition directive (c : char) (dt : Datetime.datetime) : str :=
  if (c =? 109)%N then Datetime.two_digits (Datetime.month dt)   (* %m *)
  else Datetime.directive c dt.

Fixpoint strftime (fmt : str) (dt : Datetime.datetime) : str :=
  match fmt with
  | [] => []
  | c :: rest =>
      if (c =? PyStr.chr_percent)%N then
        match rest with
        | d :: rest' => directive d dt ++ strftime rest' dt
        | [] => [c]
        end
      else c :: strftime rest dt
  end.

(** The comparison of the field tuples
    [(year, month, day, hour, minute, second, microsecond)]. *)
Definition cmp_fields (a b : Datetime.datetime) : comparison :=
  match Datetime.year a ?= Datetime.year b with
  | Eq =>
    match Datetime.month a ?= Datetime.month b with
    | Eq =>
      match Datetime.day a ?= Datetime.day b with
      | Eq =>
        match Datetime.hour a ?= Datetime.hour b with
        | Eq =>
          match Datetime.minute a ?= Datetime.minute b with
          | Eq =>
            match Datetime.second a ?= Datetime.second b with
            | Eq => Datetime.microsecond a ?= Datetime.microsecond b
            | c => c
            end
          | c => c
          end
        | c => c
        end
      | c => c
      end
    | c => c
    end
  | c => c
  end.

(** The three-way comparison behind [<], [<=], [>] and [>=] on
    datetimes.  Two naive operands, or two with the same offset, compare
    by their fields; two aware operands with different offsets compare by
    the sign of their difference; a naive and an aware operand raise
    [TypeError]. *)
Definition cmp (a b : Datetime.datetime) : result comparison :=
  match Datetime.tzinfo a, Datetime.tzinfo b with
  | None, None => Ok (cmp_fields a b)
  | Some myoff, Some otoff =>
      if myoff =? otoff then Ok (cmp_fields a b)
      else
        diff <- Datetime.sub a b;;
        Ok (if Datetime.days diff <? 0 then Lt
            else if (Datetime.days diff =? 0) && (Datetime.seconds diff =? 0)
                    && (Datetime.microseconds diff =? 0)
                 then Eq else Gt)
  | _, _ => Raise TypeError
  end.

(** [a >= b] *)
Definition ge (a b : Datetime.datetime) : result bool :=
  c <- cmp a b;;
  Ok (match c with Lt => false | _ => true end).

End DatetimeMore.

Module Download.

(** One document of the API, a JSON object; of its keys the ones the
    downloaders read to filter and to name the files. *)
Record document := mkdocument {
  id : option value;
  title : option value;
  created_at : option value;
  updated_at : option value
}.

Definition chr_underscore : char := 95%N.

(** [sanitize_filename] of [download_transcripts.py] and of
    [download_meetings.py], the same text in both. *)
Definition sanitize_filename (title : value) : result str :=
  if negb (Py.truthy title) then Ok (lit "untitled")
  else
    t <- Py.str_method title;;
    if empty (PyStr.strip t) then Ok (lit "untitled")
    else
      let invalid_chars := PyStr.unsafe_chars in
      let filename := filter (fun c => negb (PyStr.mem c invalid_chars)) t in
      let filename := PyStr.join (lit "_") (PyStr.split filename) in
      let filename := firstn 100 (PyStr.strip_char chr_underscore filename) in
      Ok (if empty filename then lit "untitled" else filename).

(** [generate_filename].  [now] is the reading of the clock: on every path
    [datetime.now()] is called at most once. *)
Definition generate_filename (now : Datetime.datetime)
    (title created_at : value) : result str :=
  let date_str :=
    try_except
      (if Py.truthy created_at then
         s <- Z_to_utc created_at;;
         date_obj <- Datetime.fromisoformat s;;
         Ok (DatetimeMore.strftime (lit "%Y-%m-%d") date_obj)
       else Ok (DatetimeMore.strftime (lit "%Y-%m-%d") now))
      (DatetimeMore.strftime (lit "%Y-%m-%d") now) in
  sanitized_title <- sanitize_filename title;;
  Ok (date_str ++ lit "_" ++ sanitized_title ++ lit ".json").

(** One turn of the loop of [filter_documents_by_date]: whether the
    document is appended.  An exception inside the [try] appends it. *)
Definition keeps (cutoff_date : Datetime.datetime) (doc : document) : bool :=
  try_except
    (let created_at := Py.get (created_at doc) VNone in
     if Py.truthy created_at then
       s <- Z_to_utc created_at;;
       doc_date <- Datetime.fromisoformat s;;
       DatetimeMore.ge doc_date cutoff_date
     else Ok false)
    true.

(** [filter_documents_by_date].  [cutoff_date] is [None] when [days_ago]
    is [None], and otherwise the value of
    [datetime.now() - timedelta(days=days_ago)], which the clock decides
    and which is a naive datetime. *)
Definition filter_documents_by_date (documents : list document)
    (cutoff_date : option Datetime.datetime) : list document :=
  match cutoff_date with
  | None => documents
  | Some cutoff => filter (keeps cutoff) documents
  end.

End Download.

(** ** Vocabulary of the further statements *)

Definition ends_with_dash (s : str) : bool := starts_with_dash (rev s).

(** The string begins with a date written [YYYY-MM-DD]: four digits, a
    dash, two digits, a dash, two digits. *)
Definition is_digit (c : char) : bool := ((48 <=? c) && (c <=? 57))%N.

Definition extended_date (s : str) : bool :=
  match s with
  | y1 :: y2 :: y3 :: y4 :: h1 :: m1 :: m2 :: h2 :: d1 :: d2 :: _ =>
      is_digit y1 && is_digit y2 && is_digit y3 && is_digit y4
      && (h1 =? 45)%N && is_digit m1 && is_digit m2
      && (h2 =? 45)%N && is_digit d1 && is_digit d2
  | _ => false
  end.

(** A naive datetime, as [datetime.now()] gives. *)
Definition naive (dt : Datetime.datetime) : bool :=
  match Datetime.tzinfo dt with None => true | Some _ => false end.

(** A title the downloaders can name a file after: [null] or a string. *)
Definition title_ok (v : value) : bool :=
  match v with VNone | VStr _ => true | VInt _ => false end.

(** Sample data. *)
Definition clock_sample : Datetime.datetime :=
  Datetime.mkdatetime 2025 6 30 8 15 0 0 None.
Definition doc_utc : Download.document :=
  Download.mkdocument (Some (VStr (lit "d1"))) (Some (VStr (lit "Plan: Q3/Q4 ")))
    (Some (VStr (lit "2001-02-03T04:05:06.000Z"))) None.
Definition doc_naive_old : Download.document :=
  Download.mkdocument (Some (VStr (lit "d2"))) (Some (VStr (lit "Old")))
    (Some (VStr (lit "2001-02-03T04:05:06"))) None.
Definition doc_undated : Download.document :=
  Download.mkdocument (Some (VStr (lit "d3"))) None None None.
Definition doc_bad_date : Download.document :=
  Download.mkdocument (Some (VStr (lit "d4"))) (Some VNone)
    (Some (VStr (lit "yesterday"))) None.

(** The first character of [s] satisfies [p]. *)
Definition head_satisfies (p : char -> bool) (s : str) : bool :=
  match s with
  | c :: _ => p c
  | [] => false
  end.

(** A character the downloaders let into a file name: none of the nine
    invalid characters and no whitespace. *)
Definition name_safe (c : char) : bool :=
  negb (PyStr.mem c PyStr.unsafe_chars) && negb (PyStr.isspace c).

(** The ten values of a decimal digit, and equality of strings as a test. *)
Definition decimal_digits : list Z := [0; 1; 2; 3; 4; 5; 6; 7; 8; 9]%Z.

Definition str_eqb (a b : str) : bool :=
  if list_eq_dec N.eq_dec a b then true else false.

(** The [created_at] of a document is a string that parses, once every
    [Z] is replaced, to a datetime with a UTC offset. *)
Definition aware_created_at (doc : Download.document) : bool :=
  match Download.created_at doc with
  | Some (VStr s) =>
      match Datetime.fromisoformat
              (PyStr.replace_char PyStr.chr_Z (lit "+00:00") s) with
      | Ok dt => negb (naive dt)
      | Raise _ => false
      end
  | _ => false
  end.

(** The [created_at] of a document is absent, [null], zero or empty. *)
Definition undated (doc : Download.document) : bool :=
  negb (Py.truthy (Py.get (Download.created_at doc) VNone)).

(** The [created_at] of a document is a non-zero integer or a non-empty
    string that does not parse. *)
Definition unparseable (doc : Download.document) : bool :=
  match Download.created_at doc with
  | Some (VInt z) => negb (z =? 0)%Z
  | Some (VStr s) =>
      negb (empty s)
      && match Datetime.fromisoformat
                 (PyStr.replace_char PyStr.chr_Z (lit "+00:00") s) with
         | Ok _ => false
         | Raise _ => true
         end
  | _ => false
  end.

(* ===================================================================== *)
(** * The batch driver of the converter *)
(* ===================================================================== *)

Module Convert.

(** The output directory: the files it holds, by name, with their text.
    The newest entry of a name stands first and is the one that is read.
    Reading an input can fail, and so can encoding the text to write; the
    directory itself is taken to accept what is written to it. *)
Definition files := list (str * str).

(** A code point that UTF-8 does not encode: a surrogate, which [json.load]
    yields for an escaped lone surrogate. *)
Definition surrogate (c : char) : bool :=
  ((55296 <=? c) && (c <=? 57343))%N.

(** [s.encode('utf-8')] succeeds. *)
Definition encodable (s : str) : bool :=
  forallb (fun c => negb (surrogate c)) s.

Fixpoint lookup (name : str) (fs : files) : option str :=
  match fs with
  | [] => None
  | (n, content) :: rest =>
      if str_eqb n name then Some content else lookup name rest
  end.

(** [path.exists()] *)
Definition path_exists (name : str) (fs : files) : bool :=
  match lookup name fs with Some _ => true | None => false end.

(** The file [name] holds [content] from now on: [open(path, 'w')] creates
    or empties the file, and a [f.write] that succeeds fills it. *)
Definition write (name content : str) (fs : files) : files :=
  (name, content) :: fs.

(** One input file: its stem, and the record that [json.load] gives, or
    [None] when opening or parsing the file raises or what is read is not
    a meeting record. *)
Record json_file := mkjson { stem : str; loaded : option transcript_data }.

(** [convert_transcript_file]: the result and the output directory
    afterwards.  The output file is opened, and so created or emptied,
    before the text is encoded: when the encoding raises, the file stays
    empty and the [except] returns [False]. *)
Definition convert_transcript_file (json : json_file) (output_path : str)
    (force : bool) (fs : files) : bool * files :=
  if path_exists output_path fs && negb force then (false, fs)
  else
    match loaded json with
    | None => (false, fs)
    | Some transcript_data =>
        match generate_markdown transcript_data with
        | Ok markdown_content =>
            if encodable markdown_content
            then (true, write output_path markdown_content fs)
            else (false, write output_path [] fs)
        | Raise _ => (false, fs)
        end
    end.

(** The three counters of the summary. *)
Record counts := mkcounts {
  converted_count : Z; skipped_count : Z; error_count : Z
}.

(** The loop of [convert_transcripts] over the input files, in the order
    the directory listing gives them. *)
Fixpoint convert_loop (json_files : list json_file) (force : bool)
    (fs : files) (c : counts) : counts * files :=
  match json_files with
  | [] => (c, fs)
  | json :: rest =>
      let sanitized_stem := sanitize_filename (stem json) in
      let output_file := sanitized_stem ++ lit ".md" in
      let (result, fs') :=
        convert_transcript_file json output_file force fs in
      let c' :=
        if result then
          mkcounts (converted_count c + 1) (skipped_count c) (error_count c)
        else if path_exists output_file fs' && negb force then
          mkcounts (converted_count c) (skipped_count c + 1) (error_count c)
        else
          mkcounts (converted_count c) (skipped_count c) (error_count c + 1)
      in
      convert_loop rest force fs' c'
  end.

Definition convert_transcripts (json_files : list json_file) (force : bool)
    (fs : files) : counts * files :=
  convert_loop json_files force fs (mkcounts 0 0 0).

End Convert.

(** Sample input files: two whose stems sanitize to the same name, and one
    that cannot be read. *)
Definition json_plan : Convert.json_file :=
  Convert.mkjson (lit "plan?") (Some record_sample).
Definition json_plan_again : Convert.json_file :=
  Convert.mkjson (lit "plan*") (Some record_untitled).
Definition json_broken : Convert.json_file :=
  Convert.mkjson (lit "broken") None.

(** A record whose title is a lone surrogate, and its input file. *)
Definition record_surrogate : transcript_data :=
  mkrecord (Some (VStr [55296%N])) None None None None.
Definition json_surrogate : Convert.json_file :=
  Convert.mkjson (lit "s") (Some record_surrogate).
(* ===================================================================== *)
(** * Properties of the string helpers *)
(* ===================================================================== *)

Section StripFacts.
Variable p : char -> bool.

Lemma lstrip_by_suffix (s : str) :
  exists dropped, s = dropped ++ PyStr.lstrip_by p s.
Proof.
  induction s as [|c t [d IH]]; simpl.
  - exists []. reflexivity.
  - destruct (p c).
    + exists (c :: d). simpl. f_equal. exact IH.
    + exists []. reflexivity.
Qed.

Lemma strip_by_infix (s : str) :
  exists front back, s = front ++ PyStr.strip_by p s ++ back.
Proof.
  unfold PyStr.strip_by, PyStr.rstrip_by.
  destruct (lstrip_by_suffix s) as [front Hf].
  destruct (lstrip_by_suffix (rev (PyStr.lstrip_by p s))) as [back Hb].
  exists front, (rev back).
  rewrite <- rev_app_distr, <- Hb, rev_involutive. exact Hf.
Qed.

Lemma strip_by_Forall (P : char -> Prop) (s : str) :
  Forall P s -> Forall P (PyStr.strip_by p s).
Proof.
  intros H. destruct (strip_by_infix s) as (front & back & E).
  rewrite E in H. apply Forall_app in H as [_ H].
  apply Forall_app in H as [H _]. exact H.
Qed.

Lemma strip_by_all (s : str) :
  forallb p s = true -> PyStr.strip_by p s = [].
Proof.
  intros H. unfold PyStr.strip_by, PyStr.rstrip_by.
  assert (E : PyStr.lstrip_by p s = []).
  { induction s as [|c t IH]; simpl in *; [reflexivity|].
    apply andb_prop in H as [-> H]. auto. }
  rewrite E. reflexivity.
Qed.
End StripFacts.

(** ** Runs of dashes *)

Lemma squeeze_cons (c : char) (s : str) :
  squeeze_dashes (c :: s) =
  if is_dash c && starts_with_dash s
  then squeeze_dashes s else c :: squeeze_dashes s.
Proof. destruct s; simpl; [rewrite andb_false_r|]; reflexivity. Qed.

Lemma has_dashdash_cons (c : char) (s : str) :
  PyStr.has_dashdash (c :: s) =
  (is_dash c && starts_with_dash s) || PyStr.has_dashdash s.
Proof. destruct s; simpl; [rewrite andb_false_r|]; reflexivity. Qed.

(** Induction over a string two characters at a time, the way
    [replace_dashdash] consumes it. *)
Lemma str_pair_ind (P : str -> Prop) :
  P [] -> (forall c, P [c]) ->
  (forall a b t, P t -> P (b :: t) -> P (a :: b :: t)) ->
  forall s, P s.
Proof.
  intros H0 H1 H2 s.
  enough (P s /\ forall c, P (c :: s)) by tauto.
  induction s as [|b t [IHa IHb]]; split; auto.
Qed.

Lemma replace_dashdash_head (s : str) :
  starts_with_dash (PyStr.replace_dashdash s) = starts_with_dash s.
Proof.
  destruct s as [|a [|b t]]; try reflexivity. simpl.
  destruct (a =? PyStr.chr_dash)%N eqn:Ea; simpl; [|unfold is_dash; now rewrite Ea].
  destruct (b =? PyStr.chr_dash)%N; simpl; unfold is_dash; now rewrite ?Ea.
Qed.

Lemma replace_dashdash_squeeze (s : str) :
  squeeze_dashes (PyStr.replace_dashdash s) = squeeze_dashes s.
Proof.
  induction s as [| c | a b t IHt IHbt] using str_pair_ind; try reflexivity.
  change (PyStr.replace_dashdash (a :: b :: t)) with
    (if ((a =? PyStr.chr_dash) && (b =? PyStr.chr_dash))%N
     then PyStr.chr_dash :: PyStr.replace_dashdash t
     else a :: PyStr.replace_dashdash (b :: t)).
  destruct (a =? PyStr.chr_dash)%N eqn:Ea; simpl andb; cbv iota.
  - destruct (b =? PyStr.chr_dash)%N eqn:Eb; cbv iota.
    + apply N.eqb_eq in Ea, Eb. subst a b.
      rewrite !squeeze_cons, replace_dashdash_head, IHt. simpl.
      reflexivity.
    + rewrite squeeze_cons, replace_dashdash_head, IHbt.
      rewrite (squeeze_cons a (b :: t)). reflexivity.
  - rewrite squeeze_cons, replace_dashdash_head, IHbt.
    rewrite (squeeze_cons a (b :: t)). reflexivity.
Qed.

Lemma replace_dashdash_shorter (s : str) :
  (length (PyStr.replace_dashdash s) <= length s)%nat /\
  (PyStr.has_dashdash s = true ->
   (length (PyStr.replace_dashdash s) < length s)%nat).
Proof.
  induction s as [| c | a b t [IHt _] [IHbt IHbt']] using str_pair_ind.
  - simpl. split; [lia|discriminate].
  - simpl. split; [lia|discriminate].
  - change (PyStr.replace_dashdash (a :: b :: t)) with
      (if ((a =? PyStr.chr_dash) && (b =? PyStr.chr_dash))%N
       then PyStr.chr_dash :: PyStr.replace_dashdash t
       else a :: PyStr.replace_dashdash (b :: t)).
    change (PyStr.has_dashdash (a :: b :: t)) with
      (((a =? PyStr.chr_dash) && (b =? PyStr.chr_dash))%N
       || PyStr.has_dashdash (b :: t)).
    destruct ((a =? PyStr.chr_dash) && (b =? PyStr.chr_dash))%N;
      simpl orb; simpl length in *; split; intros; try lia.
    specialize (IHbt' H). lia.
Qed.

Lemma squeeze_fixed (s : str) :
  PyStr.has_dashdash s = false -> squeeze_dashes s = s.
Proof.
  induction s as [|c t IH]; [reflexivity|].
  rewrite has_dashdash_cons, squeeze_cons. intros H.
  apply orb_false_elim in H as [-> H]. now rewrite IH.
Qed.

Lemma collapse_loop_squeeze (fuel : nat) (s : str) :
  squeeze_dashes (collapse_loop fuel s) = squeeze_dashes s.
Proof.
  revert s. induction fuel as [|fuel IH]; intros s; simpl; [reflexivity|].
  destruct (PyStr.has_dashdash s); [|reflexivity].
  now rewrite IH, replace_dashdash_squeeze.
Qed.

(** The bound on the passes is never what stops the loop. *)
Lemma collapse_loop_exits (fuel : nat) (s : str) :
  (length s <= fuel)%nat ->
  PyStr.has_dashdash (collapse_loop fuel s) = false.
Proof.
  revert s. induction fuel as [|fuel IH]; intros s Hlen; simpl.
  - destruct s; [reflexivity|simpl in Hlen; lia].
  - destruct (PyStr.has_dashdash s) eqn:E; [|exact E].
    apply IH. destruct (replace_dashdash_shorter s) as [_ H].
    specialize (H E). lia.
Qed.

Lemma collapse_dashes_exits (s : str) :
  PyStr.has_dashdash (collapse_dashes s) = false.
Proof. apply collapse_loop_exits. unfold collapse_dashes. lia. Qed.

Lemma collapse_dashes_squeeze (s : str) :
  collapse_dashes s = squeeze_dashes s.
Proof.
  rewrite <- (squeeze_fixed _ (collapse_dashes_exits s)).
  apply collapse_loop_squeeze.
Qed.

Lemma has_dashdash_app (s1 s2 : str) :
  PyStr.has_dashdash (s1 ++ s2) = false ->
  PyStr.has_dashdash s1 = false /\ PyStr.has_dashdash s2 = false.
Proof.
  induction s1 as [|c t IH]; simpl app; intros H.
  - split; [reflexivity|exact H].
  - rewrite has_dashdash_cons in *.
    apply orb_false_elim in H as [H1 H2].
    destruct (IH H2) as [IH1 IH2]. split; [|exact IH2].
    rewrite IH1, orb_false_r.
    destruct t; simpl in *; [now rewrite andb_false_r|exact H1].
Qed.

Lemma sanitize_char_safe (c : char) : filename_safe (sanitize_char c) = true.
Proof.
  unfold sanitize_char. fold (filename_safe c).
  destruct (filename_safe c) eqn:E; [exact E|reflexivity].
Qed.

Lemma sanitized_chars_safe (filename : str) :
  Forall (fun c => filename_safe c = true)
    (firstn 100 (PyStr.strip_char PyStr.chr_dash
                   (collapse_dashes (map sanitize_char filename)))).
Proof.
  set (s := map sanitize_char filename).
  assert (Hs : Forall (fun c => filename_safe c = true) s).
  { subst s. induction filename; simpl; constructor; auto using sanitize_char_safe. }
  assert (Hc : Forall (fun c => filename_safe c = true) (collapse_dashes s)).
  { rewrite collapse_dashes_squeeze. clear -Hs.
    induction s as [|c t IH]; [constructor|].
    rewrite squeeze_cons. inversion Hs; subst.
    destruct (is_dash c && starts_with_dash t); auto. }
  apply (strip_by_Forall (N.eqb PyStr.chr_dash)) in Hc.
  unfold PyStr.strip_char.
  rewrite <- (firstn_skipn 100 (PyStr.strip_by _ (collapse_dashes s))) in Hc.
  apply Forall_app in Hc. tauto.
Qed.

Lemma sanitized_no_dashdash (s : str) :
  PyStr.has_dashdash s = false ->
  PyStr.has_dashdash (firstn 100 (PyStr.strip_char PyStr.chr_dash s)) = false.
Proof.
  intros H. unfold PyStr.strip_char.
  destruct (strip_by_infix (N.eqb PyStr.chr_dash) s) as (front & back & E).
  rewrite E in H. apply has_dashdash_app in H as [_ H].
  apply has_dashdash_app in H as [H _].
  rewrite <- (firstn_skipn 100 (PyStr.strip_by (N.eqb PyStr.chr_dash) s)) in H.
  apply has_dashdash_app in H. tauto.
Qed.

(** C9.  For every input, [sanitize_filename] returns a non-empty string of
    at most 100 characters, all of them printable and none of them one of
    the nine unsafe characters.  The loop over double dashes leaves through
    its condition with every run of dashes collapsed to one dash, and this
    happens before the trimming and the truncation.  The result is the
    placeholder [untitled] when the input or the cleaned string is empty,
    and the cleaned string otherwise. *)
Theorem sanitize_filename_safe (filename : str) :
  let collapsed := collapse_dashes (map sanitize_char filename) in
  let cleaned := firstn 100 (PyStr.strip_char PyStr.chr_dash collapsed) in
  sanitize_filename filename <> []
  /\ (length (sanitize_filename filename) <= 100)%nat
  /\ forallb filename_safe (sanitize_filename filename) = true
  /\ collapsed = squeeze_dashes (map sanitize_char filename)
  /\ PyStr.has_dashdash collapsed = false
  /\ PyStr.has_dashdash (sanitize_filename filename) = false
  /\ sanitize_filename filename =
     (if empty filename || empty cleaned then lit "untitled" else cleaned).
Proof.
  intros collapsed cleaned.
  assert (E : sanitize_filename filename =
              if empty filename || empty cleaned
              then lit "untitled" else cleaned).
  { unfold sanitize_filename. fold collapsed. fold cleaned.
    destruct (empty filename); reflexivity. }
  pose proof (sanitized_chars_safe filename) as Hsafe.
  pose proof (collapse_dashes_exits (map sanitize_char filename)) as Hexit.
  pose proof (sanitized_no_dashdash _ Hexit) as Hdd.
  fold collapsed in Hsafe, Hexit, Hdd. fold cleaned in Hsafe, Hdd.
  assert (Hlen : (length cleaned <= 100)%nat) by apply firstn_le_length.
  repeat split; try assumption.
  - rewrite E. destruct (empty filename || empty cleaned) eqn:B.
    + discriminate.
    + apply orb_false_elim in B as [_ B]. destruct cleaned; discriminate.
  - rewrite E. destruct (empty filename || empty cleaned).
    + vm_compute. lia.
    + exact Hlen.
  - rewrite E. destruct (empty filename || empty cleaned).
    + vm_compute. reflexivity.
    + apply forallb_forall. apply Forall_forall. exact Hsafe.
  - apply collapse_dashes_squeeze.
  - rewrite E. destruct (empty filename || empty cleaned).
    + vm_compute. reflexivity.
    + exact Hdd.
Qed.

(* ===================================================================== *)
(** * Properties of the builtins *)
(* ===================================================================== *)

Lemma str_ltb_irrefl (a : str) : PyStr.ltb a a = false.
Proof.
  induction a as [|x a IH]; simpl; [reflexivity|].
  rewrite N.ltb_irrefl, N.eqb_refl, IH. reflexivity.
Qed.

Lemma str_ltb_asym (a b : str) :
  PyStr.ltb a b = true -> PyStr.ltb b a = false.
Proof.
  revert b. induction a as [|x a IH]; intros [|y b]; simpl; try congruence.
  destruct (N.ltb_spec x y), (N.ltb_spec y x), (N.eqb_spec x y),
    (N.eqb_spec y x); simpl; try lia; try congruence; auto.
Qed.

Lemma str_ltb_negtrans (a b c : str) :
  PyStr.ltb b a = false -> PyStr.ltb c b = false -> PyStr.ltb c a = false.
Proof.
  revert b c. induction a as [|x a IH]; intros [|y b] [|z c]; simpl;
    try congruence.
  destruct (N.ltb_spec y x), (N.ltb_spec z y), (N.ltb_spec z x),
    (N.eqb_spec y x), (N.eqb_spec z y), (N.eqb_spec z x);
    simpl; try lia; try congruence; eauto.
Qed.

Lemma py_eqb_eq (a b : value) : Py.eqb a b = true <-> a = b.
Proof.
  destruct a, b; simpl; split; try congruence; intros H.
  - apply Z.eqb_eq in H. congruence.
  - inversion H. apply Z.eqb_refl.
  - destruct (list_eq_dec N.eq_dec s s0); congruence.
  - inversion H. destruct (list_eq_dec N.eq_dec s0 s0); congruence.
Qed.

Section SortedFacts.
Variable A : Type.
Variable key : A -> value.

Lemma lt_only_TypeError (a b : value) (e : exn) :
  Py.lt a b = Raise e -> e = TypeError.
Proof. destruct a, b; simpl; congruence. Qed.

Lemma insert_only_TypeError (x : A) (l : list A) (e : exn) :
  Py.insert key x l = Raise e -> e = TypeError.
Proof.
  induction l as [|y l IH]; simpl; [discriminate|].
  destruct (Py.lt (key y) (key x)) as [[|]|e'] eqn:E; simpl.
  - destruct (Py.insert key x l); simpl; [discriminate|].
    intros H. apply IH. congruence.
  - discriminate.
  - intros H. apply lt_only_TypeError in E. congruence.
Qed.

Lemma sorted_only_TypeError (l : list A) (e : exn) :
  Py.sorted key l = Raise e -> e = TypeError.
Proof.
  induction l as [|x l IH]; simpl; [discriminate|].
  destruct (Py.sorted key l) as [r|e']; simpl.
  - apply insert_only_TypeError.
  - intros H. apply IH. congruence.
Qed.

Lemma insert_Permutation (x : A) (l r : list A) :
  Py.insert key x l = Ok r -> Permutation (x :: l) r.
Proof.
  revert r. induction l as [|y l IH]; simpl; intros r H.
  - inversion H. apply Permutation_refl.
  - destruct (Py.lt (key y) (key x)) as [[|]|e']; simpl in H;
      try discriminate.
    + destruct (Py.insert key x l) as [r'|]; simpl in H; inversion H.
      eapply perm_trans; [apply perm_swap|]. apply perm_skip, IH.
      reflexivity.
    + inversion H. apply Permutation_refl.
Qed.

Lemma sorted_Permutation (l r : list A) :
  Py.sorted key l = Ok r -> Permutation l r.
Proof.
  revert r. induction l as [|x l IH]; simpl; intros r H.
  - inversion H. constructor.
  - destruct (Py.sorted key l) as [r'|]; simpl in H; [|discriminate].
    eapply perm_trans; [apply perm_skip, IH; reflexivity|].
    apply insert_Permutation, H.
Qed.

Lemma lt_irrefl (v : value) : Py.lt v v <> Ok true.
Proof.
  destruct v; simpl; try discriminate.
  - rewrite Z.ltb_irrefl. discriminate.
  - rewrite str_ltb_irrefl. discriminate.
Qed.

(** The sort is stable: the items that share a key keep the order they
    had in the input. *)
Lemma insert_stable (v : value) (x : A) (l r : list A) :
  Py.insert key x l = Ok r ->
  filter (fun a => Py.eqb (key a) v) r
  = filter (fun a => Py.eqb (key a) v) (x :: l).
Proof.
  revert r. induction l as [|y l IH]; simpl; intros r H.
  - inversion H. reflexivity.
  - destruct (Py.lt (key y) (key x)) as [[|]|e'] eqn:E; simpl in H;
      try discriminate.
    + destruct (Py.insert key x l) as [r'|]; simpl in H; inversion H.
      simpl. rewrite (IH r' eq_refl). simpl.
      destruct (Py.eqb (key y) v) eqn:Ey, (Py.eqb (key x) v) eqn:Ex;
        try reflexivity.
      apply py_eqb_eq in Ey, Ex. rewrite Ey, Ex in E.
      now apply lt_irrefl in E.
    + inversion H. reflexivity.
Qed.

Lemma sorted_stable (v : value) (l r : list A) :
  Py.sorted key l = Ok r ->
  filter (fun a => Py.eqb (key a) v) r = filter (fun a => Py.eqb (key a) v) l.
Proof.
  revert r. induction l as [|x l IH]; simpl; intros r H.
  - inversion H. reflexivity.
  - destruct (Py.sorted key l) as [r'|]; simpl in H; [|discriminate].
    rewrite (insert_stable v _ _ _ H). simpl. now rewrite (IH r' eq_refl).
Qed.

(** The keys of the items in [dom] are ordered by [<] as [precedes]
    says, and [precedes] is a strict weak order. *)
Variable dom : A -> Prop.
Variable precedes : A -> A -> bool.
Hypothesis lt_precedes :
  forall a b, dom a -> dom b -> Py.lt (key a) (key b) = Ok (precedes a b).
Hypothesis precedes_asym :
  forall a b, precedes a b = true -> precedes b a = false.
Hypothesis precedes_negtrans :
  forall a b c,
    precedes b a = false -> precedes c b = false -> precedes c a = false.

Let ascending (a b : A) : Prop := precedes b a = false.

Lemma insert_ascending (x : A) (l : list A) :
  dom x -> Forall dom l -> StronglySorted ascending l ->
  exists r, Py.insert key x l = Ok r /\ StronglySorted ascending r.
Proof.
  intros Hx. induction l as [|y l IH]; intros Hl Hs; simpl.
  - exists [x]. split; [reflexivity|]. repeat constructor.
  - inversion Hl as [|? ? Hy Hl']; subst.
    inversion Hs as [|? ? Hs' Hy']; subst.
    rewrite (lt_precedes _ _ Hy Hx). simpl.
    destruct (precedes y x) eqn:E.
    + destruct (IH Hl' Hs') as (r & Er & Sr). rewrite Er. simpl.
      exists (y :: r). split; [reflexivity|]. constructor; [exact Sr|].
      apply (Permutation_Forall (insert_Permutation _ _ _ Er)).
      constructor; [|exact Hy']. apply precedes_asym, E.
    + exists (x :: y :: l). split; [reflexivity|].
      constructor; [exact Hs|]. constructor; [exact E|].
      eapply Forall_impl; [|exact Hy']. intros z Hz.
      exact (precedes_negtrans _ _ _ E Hz).
Qed.

Lemma sorted_ascending (l : list A) :
  Forall dom l ->
  exists r, Py.sorted key l = Ok r /\ StronglySorted ascending r.
Proof.
  induction l as [|x l IH]; intros Hl; simpl.
  - exists []. split; [reflexivity|constructor].
  - inversion Hl as [|? ? Hx Hl']; subst.
    destruct (IH Hl') as (r & Er & Sr). rewrite Er. simpl.
    apply insert_ascending; [exact Hx| |exact Sr].
    apply (Permutation_Forall (sorted_Permutation _ _ Er)), Hl'.
Qed.
End SortedFacts.

Lemma StronglySorted_weaken (A : Type) (R R' : A -> A -> Prop) (l : list A) :
  (forall a b, R a b -> R' a b) ->
  StronglySorted R l -> StronglySorted R' l.
Proof.
  intros HR. induction 1 as [|a l Hs IH Ha]; constructor; [exact IH|].
  eapply Forall_impl; [|exact Ha]. intros b. apply HR.
Qed.

(* ===================================================================== *)
(** * Ordering of the entries *)
(* ===================================================================== *)

Lemma entry_ok_fields (e : entry) :
  entry_ok e = true ->
  Py.get (sequence_number e) (VInt 0) = VInt (seq_key e)
  /\ Py.get (start_timestamp e) (VStr []) = VStr (ts_key e)
  /\ str_field (text e) = true.
Proof.
  unfold entry_ok, seq_key, ts_key. intros H.
  repeat (apply andb_prop in H as [H ?]).
  destruct (sequence_number e) as [[]|], (start_timestamp e) as [[]|];
    simpl in *; try discriminate; auto.
Qed.

Lemma entries_ok_Forall (entries : list entry) :
  forallb entry_ok entries = true ->
  Forall (fun e => entry_ok e = true) entries.
Proof. intros H. apply Forall_forall. apply forallb_forall, H. Qed.

(** Whatever the entries hold, the [try] block yields a rearrangement of
    the list: a failed comparison is caught and leaves the order as it
    was. *)
Lemma sort_entries_total (entries : list entry) :
  exists sorted_entries,
    sort_entries entries = Ok sorted_entries
    /\ Permutation entries sorted_entries.
Proof.
  unfold sort_entries. destruct entries as [|first rest].
  - exists []. split; [reflexivity|constructor].
  - set (entries := first :: rest).
    destruct (Py.contains (sequence_number first)).
    + destruct (Py.sorted _ entries) as [l|e] eqn:E.
      * exists l. split; [reflexivity|]. eapply sorted_Permutation, E.
      * apply sorted_only_TypeError in E. subst e.
        exists entries. split; [reflexivity|apply Permutation_refl].
    + destruct (Py.contains (start_timestamp first)).
      * destruct (Py.sorted _ entries) as [l|e] eqn:E.
        -- exists l. split; [reflexivity|]. eapply sorted_Permutation, E.
        -- apply sorted_only_TypeError in E. subst e.
           exists entries. split; [reflexivity|apply Permutation_refl].
      * exists entries. split; [reflexivity|apply Permutation_refl].
Qed.

Lemma sorted_by_sequence_number (entries : list entry) :
  forallb entry_ok entries = true ->
  exists r,
    Py.sorted (fun x => Py.get (sequence_number x) (VInt 0)) entries = Ok r
    /\ StronglySorted seq_ascending r.
Proof.
  intros H. apply entries_ok_Forall in H.
  set (key := fun x => Py.get (sequence_number x) (VInt 0)).
  set (precedes := fun a b => (seq_key a <? seq_key b)%Z).
  assert (H1 : forall a b, entry_ok a = true -> entry_ok b = true ->
                           Py.lt (key a) (key b) = Ok (precedes a b)).
  { intros a b Ha Hb. unfold key.
    destruct (entry_ok_fields a Ha) as [-> _].
    destruct (entry_ok_fields b Hb) as [-> _]. reflexivity. }
  assert (H2 : forall a b, precedes a b = true -> precedes b a = false).
  { intros a b. unfold precedes. rewrite Z.ltb_lt, Z.ltb_ge. lia. }
  assert (H3 : forall a b c, precedes b a = false ->
                             precedes c b = false -> precedes c a = false).
  { intros a b c. unfold precedes. rewrite !Z.ltb_ge. lia. }
  destruct (sorted_ascending entry key _ precedes H1 H2 H3 entries H)
    as (r & Er & Sr).
  exists r. split; [exact Er|].
  eapply StronglySorted_weaken; [|exact Sr].
  intros a b. unfold seq_ascending, precedes. rewrite Z.ltb_ge. auto.
Qed.

Lemma sorted_by_start_timestamp (entries : list entry) :
  forallb entry_ok entries = true ->
  exists r,
    Py.sorted (fun x => Py.get (start_timestamp x) (VStr [])) entries = Ok r
    /\ StronglySorted ts_ascending r.
Proof.
  intros H. apply entries_ok_Forall in H.
  set (key := fun x => Py.get (start_timestamp x) (VStr [])).
  set (precedes := fun a b => PyStr.ltb (ts_key a) (ts_key b)).
  assert (H1 : forall a b, entry_ok a = true -> entry_ok b = true ->
                           Py.lt (key a) (key b) = Ok (precedes a b)).
  { intros a b Ha Hb. unfold key.
    destruct (entry_ok_fields a Ha) as (_ & -> & _).
    destruct (entry_ok_fields b Hb) as (_ & -> & _). reflexivity. }
  assert (H2 : forall a b, precedes a b = true -> precedes b a = false).
  { intros a b. apply str_ltb_asym. }
  assert (H3 : forall a b c, precedes b a = false ->
                             precedes c b = false -> precedes c a = false).
  { intros a b c. apply str_ltb_negtrans. }
  destruct (sorted_ascending entry key _ precedes H1 H2 H3 entries H)
    as (r & Er & Sr).
  exists r. split; [exact Er|exact Sr].
Qed.

(** C3.  For a non-empty list of structurally valid entries the order is
    chosen once, from the first entry alone.  If the first entry has the
    key [sequence_number], the result is the list rearranged in ascending
    order of [sequence_number], a missing one counting as 0.  Otherwise, if
    the first entry has the key [start_timestamp], the result is the list
    rearranged in ascending lexicographic order of [start_timestamp], a
    missing one counting as the empty string.  Otherwise the list is left
    as it is.  The entries with [sequence_number] 2 and text b, and
    [sequence_number] 1 and text a, are rendered with a before b whichever
    comes first in the input. *)
Theorem sort_entries_by_first_entry (first : entry) (rest : list entry) :
  forallb entry_ok (first :: rest) = true ->
  (exists sorted_entries,
     sort_entries (first :: rest) = Ok sorted_entries
     /\ Permutation (first :: rest) sorted_entries
     /\ (Py.contains (sequence_number first) = true ->
         StronglySorted seq_ascending sorted_entries)
     /\ (Py.contains (sequence_number first) = false ->
         Py.contains (start_timestamp first) = true ->
         StronglySorted ts_ascending sorted_entries)
     /\ (Py.contains (sequence_number first) = false ->
         Py.contains (start_timestamp first) = false ->
         sorted_entries = first :: rest))
  /\ format_transcript_entries [entry_b2; entry_a1]
     = Ok (lit "**them:** a" ++ PyStr.nl ++ PyStr.nl ++ lit "**them:** b")
  /\ format_transcript_entries [entry_a1; entry_b2]
     = Ok (lit "**them:** a" ++ PyStr.nl ++ PyStr.nl ++ lit "**them:** b").
Proof.
  intros Hok. split; [|split; vm_compute; reflexivity].
  destruct (sort_entries_total (first :: rest)) as (l & El & Pl).
  exists l. split; [exact El|]. split; [exact Pl|].
  unfold sort_entries in El.
  destruct (Py.contains (sequence_number first)) eqn:Hseq.
  - destruct (sorted_by_sequence_number _ Hok) as (r & Er & Sr).
    rewrite Er in El. inversion El; subst l.
    repeat split; intros; try discriminate. exact Sr.
  - destruct (Py.contains (start_timestamp first)) eqn:Hts.
    + destruct (sorted_by_start_timestamp _ Hok) as (r & Er & Sr).
      rewrite Er in El. inversion El; subst l.
      repeat split; intros; try discriminate. exact Sr.
    + inversion El; subst l.
      repeat split; intros; discriminate.
Qed.

Lemma sort_entries_by_first_entry_witness :
  forallb entry_ok [entry_b2; entry_a1] = true
  /\ exists sorted_entries,
       sort_entries [entry_b2; entry_a1] = Ok sorted_entries
       /\ Permutation [entry_b2; entry_a1] sorted_entries
       /\ StronglySorted seq_ascending sorted_entries.
Proof.
  split; [reflexivity|].
  destruct (sort_entries_by_first_entry entry_b2 [entry_a1] eq_refl)
    as [(l & El & Pl & Hseq & _) _].
  exists l. split; [exact El|]. split; [exact Pl|].
  apply Hseq. reflexivity.
Defined.

(* ===================================================================== *)
(** * The transcript body *)
(* ===================================================================== *)

Lemma blank_format_entry (e : entry) :
  blank e = true -> format_entry e = Ok None.
Proof.
  unfold blank, format_entry.
  destruct (Py.get (text e) (VStr [])); simpl; try discriminate.
  intros ->. reflexivity.
Qed.

Lemma blank_format_lines (l : list entry) :
  Forall (fun e => blank e = true) l -> format_lines l = Ok [].
Proof.
  induction 1 as [|e l He Hl IH]; simpl; [reflexivity|].
  rewrite (blank_format_entry e He), IH. reflexivity.
Qed.

(** C1, as the code has it.  For every entry list in which every entry's
    text is empty or whitespace-only, [format_transcript_entries] returns
    the placeholder [*No transcript available*] when the list is empty, and
    the empty string when the list is not empty. *)
Theorem blank_entries_body (entries : list entry) :
  forallb blank entries = true ->
  format_transcript_entries entries =
  Ok (if empty entries then lit "*No transcript available*" else []).
Proof.
  intros H. unfold format_transcript_entries.
  destruct entries as [|first rest]; [reflexivity|]. simpl empty. cbv iota.
  destruct (sort_entries_total (first :: rest)) as (l & El & Pl).
  rewrite El. simpl.
  rewrite blank_format_lines; [reflexivity|].
  apply (Permutation_Forall Pl).
  apply Forall_forall. apply forallb_forall, H.
Qed.

Lemma blank_entries_body_witness :
  forallb blank [entry_empty_text; entry_spaces] = true
  /\ format_transcript_entries [entry_empty_text; entry_spaces] = Ok [].
Proof.
  split; [reflexivity|].
  apply (blank_entries_body [entry_empty_text; entry_spaces]). reflexivity.
Defined.

(** C1, as stated, fails: a list of one entry with empty text is rendered
    as the empty string, not as the placeholder. *)
Lemma blank_entries_not_placeholder :
  ~ (forall entries,
       forallb blank entries = true ->
       format_transcript_entries entries
       = Ok (lit "*No transcript available*")).
Proof.
  intros H. specialize (H [entry_empty_text] eq_refl).
  vm_compute in H. discriminate H.
Qed.

(** ** Tokens *)

Lemma split_from_tokens (s cur : str) :
  Forall (fun c => PyStr.isspace c = false) cur ->
  Forall (fun t => t <> [] /\ Forall (fun c => PyStr.isspace c = false) t)
         (PyStr.split_from cur s).
Proof.
  revert cur. induction s as [|c s IH]; intros cur Hcur; simpl.
  - destruct cur as [|x cur]; simpl; [constructor|].
    constructor; [|constructor]. split.
    + intros E. apply (f_equal (@length char)) in E.
      rewrite length_app in E. simpl in E. lia.
    + change (rev cur ++ [x]) with (rev (x :: cur)).
      apply Forall_rev, Hcur.
  - destruct (PyStr.isspace c) eqn:Ec.
    + destruct cur as [|x cur]; simpl; [apply IH; constructor|].
      constructor; [|apply IH; constructor]. split.
      * intros E. apply (f_equal (@length char)) in E.
        rewrite length_app in E. simpl in E. lia.
      * change (rev cur ++ [x]) with (rev (x :: cur)).
        apply Forall_rev, Hcur.
    + apply IH. constructor; assumption.
Qed.

(** Every token of [s.split()] is non-empty and free of whitespace. *)
Lemma split_tokens (s : str) :
  Forall (fun t => t <> [] /\ Forall (fun c => PyStr.isspace c = false) t)
         (PyStr.split s).
Proof. apply split_from_tokens. constructor. Qed.

(* ===================================================================== *)
(** * Speakers and statistics *)
(* ===================================================================== *)

Lemma set_add_In (v x : value) (s : list value) :
  In x (Py.set_add v s) <-> In x s \/ x = v.
Proof.
  unfold Py.set_add. destruct (existsb (Py.eqb v) s) eqn:E.
  - apply existsb_exists in E as (y & Hy & Hv). apply py_eqb_eq in Hv.
    subst y. split; [auto|]. intros [H| ->]; assumption.
  - rewrite in_app_iff. simpl. intuition congruence.
Qed.

Lemma set_add_NoDup (v : value) (s : list value) :
  NoDup s -> NoDup (Py.set_add v s).
Proof.
  intros H. unfold Py.set_add. destruct (existsb (Py.eqb v) s) eqn:E.
  - exact H.
  - apply NoDup_app; [exact H|repeat constructor; simpl; tauto|].
    intros x Hx [Hv|[]]. subst x.
    assert (C : existsb (Py.eqb v) s = true).
    { apply existsb_exists. exists v. split; [exact Hx|]. now apply py_eqb_eq. }
    congruence.
Qed.

(** The three-way choice written out in the loop of
    [get_transcript_stats] adds the very name that the transcript body
    shows. *)
Lemma stats_loop_cons (e : entry) (rest : list entry)
    (speakers : list value) (total_words : Z) :
  stats_loop (e :: rest) speakers total_words =
  (text <- Py.str_method (Py.get (text e) (VStr []));;
   stats_loop rest (Py.set_add (speaker_name e) speakers)
              (total_words + Z.of_nat (length (PyStr.split text)))).
Proof.
  simpl. unfold speaker_name.
  destruct (Py.eqb (Py.get (source e) (VStr [])) (VStr (lit "microphone")));
    [reflexivity|].
  destruct (Py.truthy (Py.get (speaker e) (VStr []))); reflexivity.
Qed.

Lemma total_tokens_cons (e : entry) (rest : list entry) :
  total_tokens (e :: rest) = (token_count e + total_tokens rest)%Z.
Proof. reflexivity. Qed.

Lemma stats_loop_result (entries : list entry) :
  forall speakers total_words speakers' total_words',
    stats_loop entries speakers total_words = Ok (speakers', total_words') ->
    (forall name, In name speakers' <->
                  In name speakers \/ In name (map speaker_name entries))
    /\ (NoDup speakers -> NoDup speakers')
    /\ total_words' = (total_words + total_tokens entries)%Z.
Proof.
  induction entries as [|e rest IH]; intros s w s' w' H.
  - simpl in H. inversion H; subst. simpl. split; [tauto|].
    split; [auto|lia].
  - rewrite stats_loop_cons in H.
    rewrite total_tokens_cons. unfold token_count.
    destruct (Py.get (text e) (VStr [])) as [|z|t]; simpl in H;
      try discriminate.
    apply IH in H as (HIn & HND & Hw). split; [|split].
    + intros name. rewrite HIn, set_add_In. simpl. intuition congruence.
    + intros Hs. apply HND, set_add_NoDup, Hs.
    + rewrite Hw. lia.
Qed.

Lemma stats_loop_total (entries : list entry) :
  texts_ok entries = true ->
  forall speakers total_words,
    exists r, stats_loop entries speakers total_words = Ok r.
Proof.
  induction entries as [|e rest IH]; intros H s w.
  - eexists. reflexivity.
  - simpl in H. apply andb_prop in H as [He H].
    rewrite stats_loop_cons.
    destruct (text e) as [[]|]; simpl in *; try discriminate; apply IH, H.
Qed.

Lemma stats_loop_raises (entries : list entry) :
  texts_ok entries = false ->
  forall speakers total_words,
    stats_loop entries speakers total_words = Raise AttributeError.
Proof.
  induction entries as [|e rest IH]; [discriminate|].
  intros H s w. rewrite stats_loop_cons.
  unfold texts_ok in H. simpl in H.
  destruct (text e) as [[| |t]|]; simpl in *; try reflexivity;
    apply IH, H.
Qed.

(** The loop of the transcript body writes, for an entry with a text,
    the line of the attribution rule, and nothing for a blank entry. *)
Lemma format_entry_line (e : entry) :
  str_field (text e) = true ->
  format_entry e = Ok (if blank e then None else Some (line_of e)).
Proof.
  unfold format_entry, blank, line_of, speaker_name. intros H.
  destruct (text e) as [[| |s]|]; simpl in H; try discriminate;
    cbn [Py.get Py.str_method bind].
  - destruct (empty (PyStr.strip s)); [reflexivity|].
    destruct (Py.truthy (Py.get (start_timestamp e) VNone)); reflexivity.
  - reflexivity.
Qed.

Lemma format_lines_map (l : list entry) :
  Forall (fun e => str_field (text e) = true) l ->
  format_lines l = Ok (map line_of (filter (fun e => negb (blank e)) l)).
Proof.
  induction 1 as [|e l He Hl IH]; simpl; [reflexivity|].
  rewrite (format_entry_line e He), IH. cbn [bind].
  destruct (blank e); reflexivity.
Qed.

(** C4.  The speaker of an entry is [me] when its source is [microphone],
    whatever its speaker field holds; otherwise it is the value of the
    speaker field when that value is non-empty; otherwise it is [them].
    The loop of the transcript body writes this very name into the line of
    an entry, and the loop of the statistics applies the same rule: the
    set of speakers it collects has no duplicates and holds exactly the
    names that the body-formatting rule gives to the entries, so every
    speaker shown in the body of these entries is one of the speakers
    counted. *)
Theorem speaker_attribution (e : entry) (entries : list entry)
    (counted : list value) (total_words : Z) :
  stats_loop entries [] 0 = Ok (counted, total_words) ->
  (Py.get (source e) (VStr []) = VStr (lit "microphone") ->
   speaker_name e = VStr (lit "me"))
  /\ (Py.get (source e) (VStr []) <> VStr (lit "microphone") ->
      Py.truthy (Py.get (speaker e) (VStr [])) = true ->
      speaker_name e = Py.get (speaker e) (VStr []))
  /\ (Py.get (source e) (VStr []) <> VStr (lit "microphone") ->
      Py.truthy (Py.get (speaker e) (VStr [])) = false ->
      speaker_name e = VStr (lit "them"))
  /\ NoDup counted
  /\ (forall name, In name counted <-> In name (map speaker_name entries))
  /\ (str_field (text e) = true ->
      format_entry e = Ok (if blank e then None else Some (line_of e)))
  /\ (exists sorted_entries,
        sort_entries entries = Ok sorted_entries
        /\ Permutation entries sorted_entries
        /\ format_transcript_entries entries
           = Ok (if empty entries then lit "*No transcript available*"
                 else PyStr.join (PyStr.nl ++ PyStr.nl)
                        (map line_of
                             (filter (fun e => negb (blank e))
                                     sorted_entries)))
        /\ (forall shown, In shown sorted_entries ->
                          In (speaker_name shown) counted)).
Proof.
  intros H.
  assert (T : texts_ok entries = true).
  { destruct (texts_ok entries) eqn:T; [reflexivity|].
    rewrite (stats_loop_raises entries T) in H. discriminate. }
  split; [|split; [|split; [|split; [|split; [|split]]]]].
  - unfold speaker_name. intros ->. reflexivity.
  - unfold speaker_name. intros Hs Ht.
    destruct (Py.eqb _ _) eqn:E; [apply py_eqb_eq in E; contradiction|].
    now rewrite Ht.
  - unfold speaker_name. intros Hs Ht.
    destruct (Py.eqb _ _) eqn:E; [apply py_eqb_eq in E; contradiction|].
    now rewrite Ht.
  - apply stats_loop_result in H as (HIn & HND & _). apply HND. constructor.
  - apply stats_loop_result in H as (HIn & HND & _).
    intros name. rewrite HIn. simpl. tauto.
  - apply format_entry_line.
  - destruct (sort_entries_total entries) as (l & El & Pl).
    exists l. split; [exact El|]. split; [exact Pl|]. split.
    + unfold format_transcript_entries.
      destruct (empty entries); [reflexivity|].
      rewrite El. cbn [bind]. rewrite format_lines_map; [reflexivity|].
      apply (Permutation_Forall Pl).
      apply Forall_forall. apply forallb_forall, T.
    + apply stats_loop_result in H as (HIn & _ & _).
      intros shown Hs. apply HIn. right. apply in_map.
      apply (Permutation_in _ (Permutation_sym Pl)), Hs.
Qed.

Lemma speaker_attribution_witness :
  stats_loop [entry_mic; entry_bob; entry_anon; entry_mic] [] 0
  = Ok ([VStr (lit "me"); VStr (lit "Bob"); VStr (lit "them")], 7%Z)
  /\ speaker_name entry_mic = VStr (lit "me")
  /\ format_entry entry_mic = Ok (Some (lit "**me:** hello there"))
  /\ (forall name,
        In name [VStr (lit "me"); VStr (lit "Bob"); VStr (lit "them")] <->
        In name (map speaker_name
                     [entry_mic; entry_bob; entry_anon; entry_mic])).
Proof.
  assert (H : stats_loop [entry_mic; entry_bob; entry_anon; entry_mic] [] 0
              = Ok ([VStr (lit "me"); VStr (lit "Bob"); VStr (lit "them")], 7%Z))
    by (vm_compute; reflexivity).
  split; [exact H|].
  destruct (speaker_attribution entry_mic _ _ _ H)
    as (Hme & _ & _ & _ & Hset & Hline & _).
  split; [apply Hme; reflexivity|]. split; [|exact Hset].
  rewrite (Hline eq_refl). vm_compute. reflexivity.
Defined.

Lemma counted_speakers_length (entries : list entry) (counted : list value) :
  NoDup counted ->
  (forall name, In name counted <-> In name (map speaker_name entries)) ->
  length counted = length (distinct_speakers entries).
Proof.
  intros HND HIn. apply Permutation_length.
  apply NoDup_Permutation; [exact HND|apply NoDup_nodup|].
  intros name. unfold distinct_speakers. rewrite nodup_In. apply HIn.
Qed.

Lemma get_transcript_stats_value (entries : list entry) :
  texts_ok entries = true ->
  get_transcript_stats entries =
    Ok (mkstats (Z.of_nat (length entries))
                (Z.of_nat (length (distinct_speakers entries)))
                (total_tokens entries)).
Proof.
  intros H. destruct entries as [|first rest]; [reflexivity|].
  unfold get_transcript_stats. simpl empty. cbv iota.
  destruct (stats_loop_total _ H [] 0%Z) as ([counted total_words] & E).
  rewrite E. simpl bind.
  apply stats_loop_result in E as (HIn & HND & Hw).
  rewrite (counted_speakers_length (first :: rest) counted).
  - rewrite Hw. reflexivity.
  - apply HND. constructor.
  - intros name. rewrite HIn. simpl. tauto.
Qed.

(** C6.  The statistics are taken over the raw entry list.  When the text
    of every entry is a string or is missing, [total_entries] is the length
    of the list, entries with empty text included; [speakers] is the number
    of distinct attributed speaker names; and [words] is the sum over all
    entries of the number of whitespace-separated tokens of the text, an
    empty or missing text giving 0.  For the empty list the result is
    0, 0, 0. *)
Theorem get_transcript_stats_counts (entries : list entry) :
  texts_ok entries = true ->
  get_transcript_stats entries =
    Ok (mkstats (Z.of_nat (length entries))
                (Z.of_nat (length (distinct_speakers entries)))
                (total_tokens entries))
  /\ get_transcript_stats [] = Ok (mkstats 0 0 0)
  /\ (forall e, text e = None \/ text e = Some (VStr []) ->
                token_count e = 0%Z).
Proof.
  intros H. split; [|split; [reflexivity|]].
  - apply get_transcript_stats_value, H.
  - intros e [E|E]; unfold token_count; rewrite E; reflexivity.
Qed.

Lemma get_transcript_stats_counts_witness :
  texts_ok [entry_mic; entry_bob; entry_anon; entry_empty_text] = true
  /\ get_transcript_stats [entry_mic; entry_bob; entry_anon; entry_empty_text]
     = Ok (mkstats 4 3 5).
Proof.
  split; [reflexivity|].
  destruct (get_transcript_stats_counts
              [entry_mic; entry_bob; entry_anon; entry_empty_text] eq_refl)
    as [E _].
  rewrite E. vm_compute. reflexivity.
Defined.

(* ===================================================================== *)
(** * The document *)
(* ===================================================================== *)

Lemma format_entry_total (e : entry) :
  str_field (text e) = true -> exists line, format_entry e = Ok line.
Proof.
  unfold format_entry. intros H.
  destruct (text e) as [[| |s]|]; simpl in *; try discriminate.
  - destruct (empty (PyStr.strip s)); [eexists; reflexivity|].
    destruct (Py.truthy _); eexists; reflexivity.
  - eexists; reflexivity.
Qed.

Lemma format_lines_total (l : list entry) :
  Forall (fun e => str_field (text e) = true) l ->
  exists lines, format_lines l = Ok lines.
Proof.
  induction 1 as [|e l He Hl [lines IH]]; simpl.
  - eexists; reflexivity.
  - destruct (format_entry_total e He) as [line ->]. rewrite IH. simpl.
    eexists; reflexivity.
Qed.

Lemma texts_ok_Forall (entries : list entry) :
  texts_ok entries = true ->
  Forall (fun e => str_field (text e) = true) entries.
Proof. intros H. apply Forall_forall. apply forallb_forall, H. Qed.

Lemma format_transcript_entries_total (entries : list entry) :
  texts_ok entries = true ->
  exists body, format_transcript_entries entries = Ok body.
Proof.
  intros H. unfold format_transcript_entries.
  destruct (empty entries); [eexists; reflexivity|].
  destruct (sort_entries_total entries) as (l & -> & Pl). simpl.
  destruct (format_lines_total l) as [lines ->]; [|eexists; reflexivity].
  apply (Permutation_Forall Pl), texts_ok_Forall, H.
Qed.

Lemma get_transcript_stats_total (entries : list entry) :
  texts_ok entries = true ->
  exists st, get_transcript_stats entries = Ok st.
Proof.
  intros H. rewrite (get_transcript_stats_value entries H).
  eexists; reflexivity.
Qed.

Lemma entry_ok_text (e : entry) :
  entry_ok e = true -> str_field (text e) = true.
Proof. intros H. apply entry_ok_fields in H. tauto. Qed.

Lemma record_ok_texts (data : transcript_data) :
  record_ok data = true -> texts_ok (entries_of data) = true.
Proof.
  unfold record_ok, entries_of, texts_ok. intros H.
  apply andb_prop in H as [_ H].
  destruct (transcript_entries data) as [l|]; [|reflexivity].
  apply forallb_forall. intros e He. apply entry_ok_text.
  revert e He. apply forallb_forall, H.
Qed.

(** The document in terms of its parts. *)
Lemma generate_markdown_parts (data : transcript_data) :
  generate_markdown data =
  (st <- get_transcript_stats (entries_of data);;
   body <- format_transcript_entries (entries_of data);;
   Ok (markdown_template
         (Py.format (Py.get (title data) (VStr (lit "Untitled Meeting"))))
         (Py.format (displayed_date (created_at data)))
         (Py.format (displayed_date (updated_at data)))
         (calculate_duration (entries_of data))
         (Py.format (Py.get (document_id data) (VStr [])))
         (PyStr.of_Z (total_entries st)) (PyStr.of_Z (speakers st))
         (PyStr.of_Z (words st)) body)).
Proof. reflexivity. Qed.

(** Whatever the keys of the record hold, the document is produced as soon
    as the text of every entry is a string or is missing. *)
Lemma generate_markdown_returns (data : transcript_data) :
  texts_ok (entries_of data) = true ->
  exists st body,
    get_transcript_stats (entries_of data) = Ok st
    /\ format_transcript_entries (entries_of data) = Ok body
    /\ generate_markdown data =
       Ok (markdown_template
             (Py.format (Py.get (title data) (VStr (lit "Untitled Meeting"))))
             (Py.format (displayed_date (created_at data)))
             (Py.format (displayed_date (updated_at data)))
             (calculate_duration (entries_of data))
             (Py.format (Py.get (document_id data) (VStr [])))
             (PyStr.of_Z (total_entries st)) (PyStr.of_Z (speakers st))
             (PyStr.of_Z (words st)) body).
Proof.
  intros H.
  destruct (get_transcript_stats_total _ H) as [st Est].
  destruct (format_transcript_entries_total _ H) as [body Ebody].
  exists st, body. split; [exact Est|]. split; [exact Ebody|].
  rewrite generate_markdown_parts, Est, Ebody. reflexivity.
Qed.

(** C2.  For every structurally valid meeting record, each of whose keys
    may be absent, [generate_markdown] raises no exception and returns the
    Markdown document built from the template.  Each fallible step puts
    its fallback in place of the error: [format_datetime] and
    [format_timestamp] return their argument unchanged unless it is a
    string that parses, and [calculate_duration] returns [Unknown] whenever
    its computation raises. *)
Theorem generate_markdown_total (data : transcript_data) :
  record_ok data = true ->
  (exists st body,
     get_transcript_stats (entries_of data) = Ok st
     /\ format_transcript_entries (entries_of data) = Ok body
     /\ generate_markdown data =
        Ok (markdown_template
              (Py.format (Py.get (title data) (VStr (lit "Untitled Meeting"))))
              (Py.format (displayed_date (created_at data)))
              (Py.format (displayed_date (updated_at data)))
              (calculate_duration (entries_of data))
              (Py.format (Py.get (document_id data) (VStr [])))
              (PyStr.of_Z (total_entries st)) (PyStr.of_Z (speakers st))
              (PyStr.of_Z (words st)) body))
  /\ (forall v,
        format_datetime v = v
        \/ exists s dt,
             v = VStr s
             /\ Datetime.fromisoformat
                  (PyStr.replace_char PyStr.chr_Z (lit "+00:00") s) = Ok dt
             /\ format_datetime v
                = VStr (Datetime.strftime (lit "%A, %B %d, %Y at %I:%M %p") dt))
  /\ (forall v,
        format_timestamp v = v
        \/ exists s dt,
             v = VStr s
             /\ format_timestamp v
                = VStr (Datetime.strftime (lit "%H:%M:%S") dt))
  /\ (forall entries e,
        calculate_duration_try entries = Raise e ->
        calculate_duration entries = lit "Unknown").
Proof.
  intros H. split; [|split; [|split]].
  - apply generate_markdown_returns, record_ok_texts, H.
  - intros v. unfold format_datetime, Z_to_utc.
    destruct v as [| |s]; simpl; auto.
    destruct (Datetime.fromisoformat _) as [dt|] eqn:E; simpl; auto.
    right. exists s, dt. auto.
  - intros v. unfold format_timestamp, Z_to_utc.
    destruct v as [| |s]; simpl; auto.
    destruct (PyStr.endswith_char PyStr.chr_Z s); simpl;
      destruct (Datetime.fromisoformat _) as [dt|]; simpl; auto;
      right; exists s, dt; auto.
  - intros entries e E. unfold calculate_duration. rewrite E. reflexivity.
Qed.

Lemma generate_markdown_total_witness :
  record_ok record_untitled = true
  /\ exists md, generate_markdown record_untitled = Ok md.
Proof.
  split; [reflexivity|].
  destruct (generate_markdown_total record_untitled eq_refl)
    as [(st & body & _ & _ & E) _].
  eexists. exact E.
Defined.

(** Outside the valid records the guarantee stops: a text that is [null]
    has no [strip] and no [split], and nothing catches the error. *)
Example generate_markdown_null_text :
  generate_markdown record_null_text = Raise AttributeError.
Proof. reflexivity. Qed.

Lemma first_line_app (t rest : str) :
  first_line (t ++ PyStr.nl ++ rest) = first_line t.
Proof.
  induction t as [|c t IH]; simpl; [reflexivity|].
  destruct (c =? 10)%N; [reflexivity|]. f_equal. exact IH.
Qed.

Lemma first_line_prefix (p rest : str) :
  forallb (fun c => negb (c =? 10)%N) p = true ->
  first_line (p ++ rest) = p ++ first_line rest.
Proof.
  induction p as [|c p IH]; simpl; [reflexivity|]. intros H.
  apply andb_prop in H as [Hc H].
  destruct (c =? 10)%N; [discriminate|]. f_equal. apply IH, H.
Qed.

Lemma markdown_template_first_line
    (t created updated duration doc total spk wrd body : str) :
  first_line (markdown_template t created updated duration doc total spk wrd
                                body)
  = lit "# " ++ first_line t.
Proof.
  unfold markdown_template. cbn [PyStr.join].
  rewrite <- !app_assoc.
  rewrite (first_line_prefix (lit "# ")) by reflexivity.
  rewrite first_line_app. reflexivity.
Qed.

(** C7, as the code has it.  For every structurally valid meeting record,
    the first line of the document is the H1 heading [# Untitled Meeting]
    when the title key is absent.  When the key is present, the heading is
    made from the title as it stands, so an empty title gives a heading
    with no text. *)
Theorem untitled_when_title_absent (data : transcript_data) :
  record_ok data = true ->
  exists md,
    generate_markdown data = Ok md
    /\ (title data = None -> first_line md = lit "# Untitled Meeting")
    /\ (forall t, title data = Some (VStr t) ->
                  first_line md = lit "# " ++ first_line t)
    /\ (title data = Some (VStr []) -> first_line md = lit "# ").
Proof.
  intros H.
  destruct (generate_markdown_returns data (record_ok_texts data H))
    as (st & body & _ & _ & E).
  eexists. split; [exact E|].
  rewrite markdown_template_first_line.
  split; [|split].
  - intros ->. reflexivity.
  - intros t ->. reflexivity.
  - intros ->. reflexivity.
Qed.

Lemma untitled_when_title_absent_witness :
  record_ok record_untitled = true
  /\ title record_untitled = None
  /\ exists md,
       generate_markdown record_untitled = Ok md
       /\ first_line md = lit "# Untitled Meeting".
Proof.
  split; [reflexivity|]. split; [reflexivity|].
  destruct (untitled_when_title_absent record_untitled eq_refl)
    as (md & E & Habsent & _).
  exists md. split; [exact E|]. apply Habsent. reflexivity.
Defined.

(** C7, as stated, fails: with the empty string as title the heading is
    empty, not [Untitled Meeting]. *)
Lemma empty_title_not_untitled :
  ~ (forall data md,
       title data = None \/ title data = Some (VStr []) ->
       generate_markdown data = Ok md ->
       first_line md = lit "# Untitled Meeting").
Proof.
  intros H.
  destruct (generate_markdown_returns record_empty_title eq_refl)
    as (st & body & _ & _ & E).
  specialize (H record_empty_title _ (or_intror eq_refl) E).
  rewrite markdown_template_first_line in H.
  vm_compute in H. discriminate H.
Qed.

(* ===================================================================== *)
(** * Dates *)
(* ===================================================================== *)

Lemma fromisoformat_valid (s : str) (dt : Datetime.datetime) :
  Datetime.fromisoformat s = Ok dt -> Datetime.valid dt = true.
Proof.
  unfold Datetime.fromisoformat.
  destruct (Datetime.parse_isoformat s) as [d|]; [|discriminate].
  destruct (Datetime.valid d) eqn:E; [|discriminate].
  intros H. inversion H; subst. exact E.
Qed.

Lemma valid_ranges (dt : Datetime.datetime) :
  Datetime.valid dt = true ->
  (0 <= Datetime.hour dt <= 23 /\ 0 <= Datetime.minute dt <= 59
   /\ 0 <= Datetime.second dt <= 59
   /\ 0 <= Datetime.microsecond dt <= 999999)%Z.
Proof.
  unfold Datetime.valid. intros H.
  repeat (apply andb_prop in H as [H ?]).
  repeat match goal with
         | E : (_ <=? _)%Z = true |- _ => apply Z.leb_le in E
         end.
  lia.
Qed.

Lemma two_digits_length (z : Z) :
  (0 <= z < 100)%Z -> length (Datetime.two_digits z) = 2%nat.
Proof.
  intros Hz.
  assert (H : forallb (fun n => length (Datetime.two_digits (Z.of_nat n))
                                =? 2)%nat (seq 0 100) = true)
    by (vm_compute; reflexivity).
  rewrite forallb_forall in H.
  specialize (H (Z.to_nat z)). rewrite Z2Nat.id in H by lia.
  apply Nat.eqb_eq, H, in_seq. lia.
Qed.

Lemma hour12_range (h : Z) : (1 <= Datetime.hour12 h <= 12)%Z.
Proof.
  unfold Datetime.hour12.
  pose proof (Z.mod_pos_bound h 12).
  destruct (h mod 12 =? 0)%Z eqn:E; [lia|]. apply Z.eqb_neq in E. lia.
Qed.

Lemma strftime_percent (d : char) (rest : str) (dt : Datetime.datetime) :
  Datetime.strftime (PyStr.chr_percent :: d :: rest) dt =
  Datetime.directive d dt ++ Datetime.strftime rest dt.
Proof. reflexivity. Qed.

Lemma strftime_plain (c : char) (rest : str) (dt : Datetime.datetime) :
  (c =? PyStr.chr_percent)%N = false ->
  Datetime.strftime (c :: rest) dt = c :: Datetime.strftime rest dt.
Proof. intros H. simpl. rewrite H. reflexivity. Qed.

Ltac strftime_step :=
  first [ rewrite strftime_percent
        | rewrite strftime_plain by reflexivity ].

Lemma strftime_display (dt : Datetime.datetime) :
  Datetime.strftime (lit "%A, %B %d, %Y at %I:%M %p") dt =
  Datetime.weekday_name (Datetime.weekday dt) ++ lit ", "
  ++ Datetime.month_name (Datetime.month dt) ++ lit " "
  ++ Datetime.two_digits (Datetime.day dt) ++ lit ", "
  ++ PyStr.pad_left 4 (PyStr.of_Z (Datetime.year dt)) ++ lit " at "
  ++ Datetime.two_digits (Datetime.hour12 (Datetime.hour dt)) ++ lit ":"
  ++ Datetime.two_digits (Datetime.minute dt) ++ lit " "
  ++ (if (Datetime.hour dt <? 12)%Z then lit "AM" else lit "PM").
Proof.
  let fmt := eval vm_compute in (lit "%A, %B %d, %Y at %I:%M %p") in
  change (lit "%A, %B %d, %Y at %I:%M %p") with fmt.
  repeat strftime_step.
  change (Datetime.strftime [] dt) with (@nil char).
  rewrite app_nil_r. reflexivity.
Qed.

Lemma strftime_clock (dt : Datetime.datetime) :
  Datetime.strftime (lit "%H:%M:%S") dt =
  Datetime.two_digits (Datetime.hour dt) ++ lit ":"
  ++ Datetime.two_digits (Datetime.minute dt) ++ lit ":"
  ++ Datetime.two_digits (Datetime.second dt).
Proof.
  let fmt := eval vm_compute in (lit "%H:%M:%S") in
  change (lit "%H:%M:%S") with fmt.
  repeat strftime_step.
  change (Datetime.strftime [] dt) with (@nil char).
  rewrite app_nil_r. reflexivity.
Qed.

(** C8.  [format_datetime] parses its argument after every [Z] has been
    replaced by [+00:00].  On success it gives the English display date
    [<Weekday>, <Month> <day>, <year> at <hour>:<minute> <AM or PM>] on the
    12-hour clock, the hour and the minute written with two digits.  On a
    parse failure it gives back the string it was given.
    [generate_markdown] shows this value for a non-empty date and shows
    [Unknown] when the date key is absent or holds the empty string.  The
    date 2024-03-15T09:30:00Z is shown as
    [Friday, March 15, 2024 at 09:30 AM]. *)
Theorem format_datetime_display (s : str) :
  (forall dt,
     Datetime.fromisoformat
       (PyStr.replace_char PyStr.chr_Z (lit "+00:00") s) = Ok dt ->
     format_datetime (VStr s) =
       VStr (Datetime.weekday_name (Datetime.weekday dt) ++ lit ", "
             ++ Datetime.month_name (Datetime.month dt) ++ lit " "
             ++ Datetime.two_digits (Datetime.day dt) ++ lit ", "
             ++ PyStr.pad_left 4 (PyStr.of_Z (Datetime.year dt)) ++ lit " at "
             ++ Datetime.two_digits (Datetime.hour12 (Datetime.hour dt))
             ++ lit ":"
             ++ Datetime.two_digits (Datetime.minute dt) ++ lit " "
             ++ (if (Datetime.hour dt <? 12)%Z then lit "AM" else lit "PM"))
     /\ (1 <= Datetime.hour12 (Datetime.hour dt) <= 12)%Z
     /\ length (Datetime.two_digits (Datetime.hour12 (Datetime.hour dt)))
        = 2%nat
     /\ length (Datetime.two_digits (Datetime.minute dt)) = 2%nat)
  /\ (forall e,
        Datetime.fromisoformat
          (PyStr.replace_char PyStr.chr_Z (lit "+00:00") s) = Raise e ->
        format_datetime (VStr s) = VStr s)
  /\ (s <> [] -> displayed_date (Some (VStr s)) = format_datetime (VStr s))
  /\ displayed_date None = VStr (lit "Unknown")
  /\ displayed_date (Some (VStr [])) = VStr (lit "Unknown")
  /\ (forall data md,
        generate_markdown data = Ok md ->
        exists st body,
          md = markdown_template
                 (Py.format (Py.get (title data) (VStr (lit "Untitled Meeting"))))
                 (Py.format (displayed_date (created_at data)))
                 (Py.format (displayed_date (updated_at data)))
                 (calculate_duration (entries_of data))
                 (Py.format (Py.get (document_id data) (VStr [])))
                 (PyStr.of_Z (total_entries st)) (PyStr.of_Z (speakers st))
                 (PyStr.of_Z (words st)) body)
  /\ format_datetime (VStr (lit "2024-03-15T09:30:00Z"))
     = VStr (lit "Friday, March 15, 2024 at 09:30 AM")
  /\ displayed_date (Some (VStr (lit "2024-03-15T09:30:00Z")))
     = VStr (lit "Friday, March 15, 2024 at 09:30 AM").
Proof.
  split; [|split; [|split; [|split; [|split; [|split; [|split]]]]]].
  8: vm_compute; reflexivity.
  7: vm_compute; reflexivity.
  5: vm_compute; reflexivity.
  4: vm_compute; reflexivity.
  - intros dt E. unfold format_datetime, Z_to_utc.
    cbn [bind try_except Py.str_method]. rewrite E.
    cbn [bind try_except]. rewrite strftime_display.
    pose proof (valid_ranges dt (fromisoformat_valid _ _ E)) as R.
    pose proof (hour12_range (Datetime.hour dt)).
    repeat split; try lia; apply two_digits_length; lia.
  - intros e E. unfold format_datetime, Z_to_utc.
    cbn [bind try_except Py.str_method]. rewrite E. reflexivity.
  - intros Hs. unfold displayed_date. destruct s; [contradiction|reflexivity].
  - intros data md E. rewrite generate_markdown_parts in E.
    destruct (get_transcript_stats _) as [st|]; [|discriminate].
    destruct (format_transcript_entries _) as [body|]; [|discriminate].
    exists st, body. simpl in E. inversion E. reflexivity.
Qed.

Lemma format_datetime_display_witness :
  Datetime.fromisoformat
    (PyStr.replace_char PyStr.chr_Z (lit "+00:00")
                        (lit "2024-03-15T21:05:00Z"))
  = Ok (Datetime.mkdatetime 2024 3 15 21 5 0 0 (Some 0%Z))
  /\ format_datetime (VStr (lit "2024-03-15T21:05:00Z"))
     = VStr (lit "Friday, March 15, 2024 at 09:05 PM").
Proof.
  assert (E : Datetime.fromisoformat
                (PyStr.replace_char PyStr.chr_Z (lit "+00:00")
                                    (lit "2024-03-15T21:05:00Z"))
              = Ok (Datetime.mkdatetime 2024 3 15 21 5 0 0 (Some 0%Z)))
    by (vm_compute; reflexivity).
  split; [exact E|].
  destruct (format_datetime_display (lit "2024-03-15T21:05:00Z"))
    as [H _].
  destruct (H _ E) as [-> _]. vm_compute. reflexivity.
Defined.

(* ===================================================================== *)
(** * Duration *)
(* ===================================================================== *)

Lemma min_from_strings (l : list value) :
  Forall (fun v => is_VStr v = true) l ->
  forall best,
  exists m,
    Py.min_from (VStr best) l = Ok (VStr m)
    /\ (m = best \/ In (VStr m) l)
    /\ PyStr.ltb best m = false
    /\ (forall s, In (VStr s) l -> PyStr.ltb s m = false).
Proof.
  induction 1 as [|v l Hv Hl IH]; intros best; simpl.
  - exists best. repeat split; auto using str_ltb_irrefl. intros s [].
  - destruct v as [| |x]; try discriminate. simpl.
    destruct (PyStr.ltb x best) eqn:E.
    + destruct (IH x) as (m & Em & Hin & Hb & Hall).
      exists m. split; [exact Em|]. split; [|split].
      * destruct Hin as [->|Hin]; auto.
      * apply (str_ltb_negtrans m x best); [exact Hb|].
        apply str_ltb_asym, E.
      * intros s [Hs|Hs]; [inversion Hs; subst; exact Hb|auto].
    + destruct (IH best) as (m & Em & Hin & Hb & Hall).
      exists m. split; [exact Em|]. split; [|split].
      * destruct Hin as [->|Hin]; auto.
      * exact Hb.
      * intros s [Hs|Hs]; [|auto]. inversion Hs; subst.
        apply (str_ltb_negtrans m best s); assumption.
Qed.

Lemma max_from_strings (l : list value) :
  Forall (fun v => is_VStr v = true) l ->
  forall best,
  exists m,
    Py.max_from (VStr best) l = Ok (VStr m)
    /\ (m = best \/ In (VStr m) l)
    /\ PyStr.ltb m best = false
    /\ (forall s, In (VStr s) l -> PyStr.ltb m s = false).
Proof.
  induction 1 as [|v l Hv Hl IH]; intros best; simpl.
  - exists best. repeat split; auto using str_ltb_irrefl. intros s [].
  - destruct v as [| |x]; try discriminate. unfold Py.gt. simpl.
    destruct (PyStr.ltb best x) eqn:E.
    + destruct (IH x) as (m & Em & Hin & Hb & Hall).
      exists m. split; [exact Em|]. split; [|split].
      * destruct Hin as [->|Hin]; auto.
      * apply (str_ltb_negtrans best x m); [|exact Hb].
        apply str_ltb_asym, E.
      * intros s [Hs|Hs]; [inversion Hs; subst; exact Hb|auto].
    + destruct (IH best) as (m & Em & Hin & Hb & Hall).
      exists m. split; [exact Em|]. split; [|split].
      * destruct Hin as [->|Hin]; auto.
      * exact Hb.
      * intros s [Hs|Hs]; [|auto]. inversion Hs; subst.
        apply (str_ltb_negtrans s best m); assumption.
Qed.

Lemma min_strings (l : list value) :
  Forall (fun v => is_VStr v = true) l -> l <> [] ->
  exists m, Py.min l = Ok (VStr m) /\ str_minimum m l.
Proof.
  intros H Hne. destruct l as [|v l]; [contradiction|].
  inversion H as [|? ? Hv Hl]; subst.
  destruct v as [| |b]; try discriminate.
  destruct (min_from_strings l Hl b) as (m & Em & Hin & Hb & Hall).
  exists m. split; [exact Em|]. split.
  - destruct Hin as [->|Hin]; simpl; auto.
  - intros s [Hs|Hs]; [inversion Hs; subst; exact Hb|auto].
Qed.

Lemma max_strings (l : list value) :
  Forall (fun v => is_VStr v = true) l -> l <> [] ->
  exists m, Py.max l = Ok (VStr m) /\ str_maximum m l.
Proof.
  intros H Hne. destruct l as [|v l]; [contradiction|].
  inversion H as [|? ? Hv Hl]; subst.
  destruct v as [| |b]; try discriminate.
  destruct (max_from_strings l Hl b) as (m & Em & Hin & Hb & Hall).
  exists m. split; [exact Em|]. split.
  - destruct Hin as [->|Hin]; simpl; auto.
  - intros s [Hs|Hs]; [inversion Hs; subst; exact Hb|auto].
Qed.

Lemma present_strings (key : entry -> option value) (entries : list entry) :
  Forall (fun e => str_field (key e) = true) entries ->
  Forall (fun v => is_VStr v = true) (present key entries).
Proof.
  unfold present. induction 1 as [|e l He Hl IH]; simpl; [constructor|].
  destruct (key e) as [[| |s]|]; simpl in *; try discriminate; auto.
  destruct (negb (empty s)); auto.
Qed.

Lemma entries_ok_timestamps (entries : list entry) :
  forallb entry_ok entries = true ->
  Forall (fun e => str_field (start_timestamp e) = true) entries
  /\ Forall (fun e => str_field (end_timestamp e) = true) entries.
Proof.
  intros H. apply entries_ok_Forall in H.
  split; (eapply Forall_impl; [|exact H]); intros e He; unfold entry_ok in He;
    repeat (apply andb_prop in He as [He ?]); assumption.
Qed.

Lemma present_nonempty (key : entry -> option value) (entries : list entry) :
  present key entries <> [] -> empty entries = false.
Proof. destruct entries; [intros H; now elim H|reflexivity]. Qed.

Lemma empty_false (A : Type) (l : list A) : l <> [] -> empty l = false.
Proof. destruct l; [intros H; now elim H|reflexivity]. Qed.

(** Once the two extremal timestamps are known, the rest of the [try] is
    [duration_between]. *)
Lemma calculate_duration_chosen (entries : list entry) (first last : str) :
  present start_timestamp entries <> [] ->
  present end_timestamp entries <> [] ->
  Py.min (present start_timestamp entries) = Ok (VStr first) ->
  Py.max (present end_timestamp entries) = Ok (VStr last) ->
  calculate_duration entries = duration_between first last.
Proof.
  intros Hs He Emin Emax.
  unfold calculate_duration, calculate_duration_try, duration_between.
  rewrite (present_nonempty _ _ Hs), (empty_false _ _ Hs),
    (empty_false _ _ He), Emin, Emax.
  unfold Z_to_utc. cbn [orb bind Py.str_method].
  destruct (Datetime.fromisoformat _) as [start_dt|];
    cbn [bind try_except]; [|reflexivity].
  destruct (Datetime.fromisoformat _) as [end_dt|];
    cbn [bind try_except]; [|reflexivity].
  destruct (Datetime.sub end_dt start_dt); reflexivity.
Qed.




Lemma timedelta_seconds_range (d s us : Z) :
  (0 <= Datetime.seconds (Datetime.timedelta_of d s us) < 86400)%Z.
Proof. unfold Datetime.timedelta_of. simpl. apply Z.mod_pos_bound. lia. Qed.

Lemma sub_seconds_range (a b : Datetime.datetime) (d : Datetime.timedelta) :
  Datetime.sub a b = Ok d -> (0 <= Datetime.seconds d < 86400)%Z.
Proof.
  unfold Datetime.sub.
  destruct (Datetime.tzinfo a), (Datetime.tzinfo b); intros H;
    inversion H; apply timedelta_seconds_range.
Qed.

Lemma timedelta_days_discarded (d s us k : Z) :
  Datetime.seconds (Datetime.timedelta_of (d + k) s us)
  = Datetime.seconds (Datetime.timedelta_of d s us).
Proof.
  unfold Datetime.timedelta_of. simpl.
  replace (((d + k) * 86400 + s) * 1000000 + us)%Z
    with (((d * 86400 + s) * 1000000 + us) + (k * 86400) * 1000000)%Z by lia.
  rewrite Z.div_add by lia. rewrite Z.mod_add by lia. reflexivity.
Qed.

(** C10.  When [calculate_duration] reaches its arithmetic, the hours and
    minutes it writes come from the [seconds] field of the difference
    alone.  That field lies between 0 and 86399 whatever the order of the
    two datetimes, so the hours lie between 0 and 23 and the minutes
    between 0 and 59, never negative; and it does not change when whole
    days are added to the difference, so whole days are dropped.  A span
    of 25 hours is written [1 hour 0 minutes], and an end one hour before
    the start is written [23 hours 0 minutes]. *)
Theorem duration_uses_seconds_field
    (entries : list entry) (first last : str)
    (start_dt end_dt : Datetime.datetime) (duration : Datetime.timedelta) :
  present start_timestamp entries <> [] ->
  present end_timestamp entries <> [] ->
  Py.min (present start_timestamp entries) = Ok (VStr first) ->
  Py.max (present end_timestamp entries) = Ok (VStr last) ->
  Datetime.fromisoformat
    (PyStr.replace_char PyStr.chr_Z (lit "+00:00") first) = Ok start_dt ->
  Datetime.fromisoformat
    (PyStr.replace_char PyStr.chr_Z (lit "+00:00") last) = Ok end_dt ->
  Datetime.sub end_dt start_dt = Ok duration ->
  calculate_duration entries =
    duration_text (Datetime.seconds duration / 3600)%Z
                  ((Datetime.seconds duration mod 3600) / 60)%Z
  /\ (0 <= Datetime.seconds duration < 86400)%Z
  /\ (0 <= Datetime.seconds duration / 3600 <= 23)%Z
  /\ (0 <= (Datetime.seconds duration mod 3600) / 60 <= 59)%Z
  /\ (forall d s us k,
        Datetime.seconds (Datetime.timedelta_of (d + k) s us)
        = Datetime.seconds (Datetime.timedelta_of d s us))
  /\ calculate_duration [entry_25_hours] = lit "1 hour 0 minutes"
  /\ calculate_duration [entry_backwards] = lit "23 hours 0 minutes".
Proof.
  intros Hs He Emin Emax Estart Eend Esub.
  pose proof (sub_seconds_range _ _ _ Esub) as R.
  split; [|split; [|split; [|split; [|split; [|split]]]]].
  - rewrite (calculate_duration_chosen entries first last Hs He Emin Emax).
    unfold duration_between. rewrite Estart, Eend, Esub. reflexivity.
  - exact R.
  - split; [apply Z.div_pos; lia|].
    apply Z.lt_succ_r, Z.div_lt_upper_bound; lia.
  - pose proof (Z.mod_pos_bound (Datetime.seconds duration) 3600).
    split; [apply Z.div_pos; lia|].
    apply Z.lt_succ_r, Z.div_lt_upper_bound; lia.
  - apply timedelta_days_discarded.
  - vm_compute. reflexivity.
  - vm_compute. reflexivity.
Qed.

Lemma duration_uses_seconds_field_witness :
  Datetime.sub (Datetime.mkdatetime 2024 1 2 11 0 0 0 (Some 0%Z))
               (Datetime.mkdatetime 2024 1 1 10 0 0 0 (Some 0%Z))
  = Ok (Datetime.mktimedelta 1 3600 0)
  /\ calculate_duration [entry_25_hours] = duration_text 1 0.
Proof.
  assert (Esub : Datetime.sub
                   (Datetime.mkdatetime 2024 1 2 11 0 0 0 (Some 0%Z))
                   (Datetime.mkdatetime 2024 1 1 10 0 0 0 (Some 0%Z))
                 = Ok (Datetime.mktimedelta 1 3600 0))
    by (vm_compute; reflexivity).
  split; [exact Esub|].
  refine (proj1 (duration_uses_seconds_field
                   [entry_25_hours]
                   (lit "2024-01-01T10:00:00Z") (lit "2024-01-02T11:00:00Z")
                   _ _ _ _ _ _ _ _ _ Esub)).
  - vm_compute. discriminate.
  - vm_compute. discriminate.
  - vm_compute. reflexivity.
  - vm_compute. reflexivity.
  - vm_compute. reflexivity.
  - vm_compute. reflexivity.
Defined.

(* ===================================================================== *)
(** * Further properties of [sanitize_filename] *)
(* ===================================================================== *)

Section StripEnds.
Variable p : char -> bool.

Lemma lstrip_by_head (s : str) :
  head_satisfies p (PyStr.lstrip_by p s) = false.
Proof.
  induction s as [|c t IH]; simpl; [reflexivity|].
  destruct (p c) eqn:E; [exact IH|simpl; exact E].
Qed.

Lemma head_of_prefix (x y : str) :
  x <> [] -> head_satisfies p (x ++ y) = head_satisfies p x.
Proof. destruct x; [intros H; now elim H|reflexivity]. Qed.

Lemma rstrip_by_head (s : str) :
  head_satisfies p s = false ->
  head_satisfies p (PyStr.rstrip_by p s) = false.
Proof.
  intros H. unfold PyStr.rstrip_by.
  destruct (lstrip_by_suffix p (rev s)) as [d E].
  apply (f_equal (@rev char)) in E.
  rewrite rev_involutive, rev_app_distr in E.
  destruct (rev (PyStr.lstrip_by p (rev s))) as [|c x] eqn:Ex;
    [reflexivity|].
  rewrite E in H. simpl in *. exact H.
Qed.

Lemma strip_by_head (s : str) :
  head_satisfies p (PyStr.strip_by p s) = false.
Proof. apply rstrip_by_head, lstrip_by_head. Qed.

Lemma strip_by_last (s : str) :
  head_satisfies p (rev (PyStr.strip_by p s)) = false.
Proof.
  unfold PyStr.strip_by, PyStr.rstrip_by. rewrite rev_involutive.
  apply lstrip_by_head.
Qed.

Lemma lstrip_by_fixed (s : str) :
  head_satisfies p s = false -> PyStr.lstrip_by p s = s.
Proof. destruct s as [|c t]; simpl; [reflexivity|]. now intros ->. Qed.

Lemma strip_by_fixed (s : str) :
  head_satisfies p s = false -> head_satisfies p (rev s) = false ->
  PyStr.strip_by p s = s.
Proof.
  intros H1 H2. unfold PyStr.strip_by, PyStr.rstrip_by.
  rewrite (lstrip_by_fixed s H1), (lstrip_by_fixed (rev s) H2).
  apply rev_involutive.
Qed.

Lemma firstn_head (n : nat) (s : str) :
  head_satisfies p (firstn (S n) s) = head_satisfies p s.
Proof. destruct s; reflexivity. Qed.
End StripEnds.

Lemma is_dash_sym (c : char) : N.eqb PyStr.chr_dash c = is_dash c.
Proof. apply N.eqb_sym. Qed.

Lemma head_dash (s : str) :
  head_satisfies (N.eqb PyStr.chr_dash) s = starts_with_dash s.
Proof. destruct s; [reflexivity|apply is_dash_sym]. Qed.

(** The two shapes of the result of [sanitize_filename]. *)
Lemma sanitize_filename_cases (filename : str) :
  sanitize_filename filename = lit "untitled"
  \/ (sanitize_filename filename
      = firstn 100 (PyStr.strip_char PyStr.chr_dash
                      (collapse_dashes (map sanitize_char filename)))
      /\ sanitize_filename filename <> []).
Proof.
  unfold sanitize_filename. destruct (empty filename); [now left|].
  destruct (firstn 100 _) as [|c r] eqn:E; [now left|].
  right. split; [reflexivity|discriminate].
Qed.

Lemma sanitize_filename_ends (filename : str) :
  starts_with_dash (sanitize_filename filename) = false
  /\ (ends_with_dash (sanitize_filename filename) = true ->
      length (sanitize_filename filename) = 100%nat).
Proof.
  destruct (sanitize_filename_cases filename) as [E|[E _]]; rewrite E.
  - split; [reflexivity|]. vm_compute. discriminate.
  - set (x := PyStr.strip_char PyStr.chr_dash _). split.
    + rewrite <- head_dash.
      rewrite (firstn_head (N.eqb PyStr.chr_dash) 99 x).
      apply strip_by_head.
    + intros H. destruct (Nat.le_gt_cases (length x) 100) as [L|L].
      * rewrite firstn_all2 in H by exact L.
        unfold ends_with_dash in H. rewrite <- head_dash in H.
        subst x. unfold PyStr.strip_char in H.
        rewrite strip_by_last in H. discriminate.
      * apply firstn_length_le. lia.
Qed.

(** X1.  The result of [sanitize_filename] never begins with a dash, and it
    ends with a dash only when the cut at 100 characters left one there:
    a result that ends with a dash is exactly 100 characters long. *)
Theorem sanitize_filename_dash_ends (filename : str) :
  starts_with_dash (sanitize_filename filename) = false
  /\ (ends_with_dash (sanitize_filename filename) = true ->
      length (sanitize_filename filename) = 100%nat).
Proof. apply sanitize_filename_ends. Qed.

Lemma sanitize_filename_dash_ends_witness :
  ends_with_dash (sanitize_filename (repeat 97%N 99 ++ lit "-b")) = true
  /\ length (sanitize_filename (repeat 97%N 99 ++ lit "-b")) = 100%nat.
Proof.
  assert (H : ends_with_dash
                (sanitize_filename (repeat 97%N 99 ++ lit "-b")) = true)
    by (vm_compute; reflexivity).
  split; [exact H|].
  exact (proj2 (sanitize_filename_dash_ends _) H).
Defined.

Lemma sanitize_char_fixed (s : str) :
  forallb filename_safe s = true -> map sanitize_char s = s.
Proof.
  induction s as [|c t IH]; simpl; [reflexivity|]. intros H.
  apply andb_prop in H as [Hc H]. rewrite (IH H). f_equal.
  unfold sanitize_char. fold (filename_safe c). now rewrite Hc.
Qed.

Lemma collapse_dashes_fixed (s : str) :
  PyStr.has_dashdash s = false -> collapse_dashes s = s.
Proof.
  intros H. unfold collapse_dashes. destruct (length s); simpl;
    [reflexivity|]. now rewrite H.
Qed.

Lemma sanitize_filename_facts (filename : str) :
  forallb filename_safe (sanitize_filename filename) = true
  /\ PyStr.has_dashdash (sanitize_filename filename) = false
  /\ (length (sanitize_filename filename) <= 100)%nat
  /\ sanitize_filename filename <> [].
Proof.
  destruct (sanitize_filename_cases filename) as [E|[E Hne]].
  - rewrite E. repeat split; try (vm_compute; reflexivity).
    + vm_compute. lia.
    + discriminate.
  - split; [|split; [|split]]; try exact Hne; rewrite E.
    + apply forallb_forall, Forall_forall, sanitized_chars_safe.
    + apply sanitized_no_dashdash, collapse_dashes_exits.
    + apply firstn_le_length.
Qed.

(** X2.  [sanitize_filename] changes nothing in a name it has produced,
    unless that name ends with a dash left by the cut at 100 characters:
    applied to a result that does not end with a dash, it returns it. *)
Theorem sanitize_filename_idempotent (filename : str) :
  ends_with_dash (sanitize_filename filename) = false ->
  sanitize_filename (sanitize_filename filename) = sanitize_filename filename.
Proof.
  intros Hend.
  destruct (sanitize_filename_facts filename) as (Hsafe & Hdd & Hlen & Hne).
  destruct (sanitize_filename_ends filename) as [Hstart _].
  set (r := sanitize_filename filename) in *.
  unfold sanitize_filename.
  destruct r as [|c r'] eqn:Er; [now elim Hne|]. rewrite <- Er in *.
  replace (empty r) with false by (rewrite Er; reflexivity).
  rewrite (sanitize_char_fixed r Hsafe), (collapse_dashes_fixed r Hdd).
  unfold PyStr.strip_char. rewrite strip_by_fixed.
  - rewrite firstn_all2 by exact Hlen. rewrite Er. reflexivity.
  - rewrite head_dash. exact Hstart.
  - rewrite head_dash. exact Hend.
Qed.

Lemma sanitize_filename_idempotent_witness :
  ends_with_dash (sanitize_filename (lit "notes: draft?.json")) = false
  /\ sanitize_filename (sanitize_filename (lit "notes: draft?.json"))
     = sanitize_filename (lit "notes: draft?.json").
Proof.
  split; [reflexivity|].
  apply (sanitize_filename_idempotent (lit "notes: draft?.json")).
  reflexivity.
Defined.

(* ===================================================================== *)
(** * Timestamps of the transcript lines *)
(* ===================================================================== *)

(** X3.  [format_timestamp] of a string parses the string itself, or, when
    the string ends with [Z], the string with every [Z] replaced by
    [+00:00].  When that parses, the result is the eight characters
    [HH:MM:SS] of the wall clock written in the timestamp, whatever its UTC
    offset; when it does not, the result is the string unchanged.  A value
    that is not a string comes back unchanged. *)
Theorem format_timestamp_clock (s : str) :
  (forall dt,
     (if PyStr.endswith_char PyStr.chr_Z s
      then Datetime.fromisoformat
             (PyStr.replace_char PyStr.chr_Z (lit "+00:00") s)
      else Datetime.fromisoformat s) = Ok dt ->
     format_timestamp (VStr s)
     = VStr (Datetime.two_digits (Datetime.hour dt) ++ lit ":"
             ++ Datetime.two_digits (Datetime.minute dt) ++ lit ":"
             ++ Datetime.two_digits (Datetime.second dt))
     /\ length (Py.format (format_timestamp (VStr s))) = 8%nat)
  /\ (forall e,
        (if PyStr.endswith_char PyStr.chr_Z s
         then Datetime.fromisoformat
                (PyStr.replace_char PyStr.chr_Z (lit "+00:00") s)
         else Datetime.fromisoformat s) = Raise e ->
        format_timestamp (VStr s) = VStr s)
  /\ format_timestamp VNone = VNone
  /\ (forall z, format_timestamp (VInt z) = VInt z).
Proof.
  split; [|split; [|split]]; try reflexivity.
  - intros dt E.
    assert (F : format_timestamp (VStr s)
                = VStr (Datetime.strftime (lit "%H:%M:%S") dt)).
    { unfold format_timestamp, Z_to_utc.
      cbn [bind try_except Py.str_method].
      destruct (PyStr.endswith_char PyStr.chr_Z s);
        cbn [bind try_except Py.str_method]; rewrite E; reflexivity. }
    rewrite F, strftime_clock. split; [reflexivity|].
    assert (V : Datetime.valid dt = true).
    { destruct (PyStr.endswith_char PyStr.chr_Z s);
        apply (fromisoformat_valid _ _ E). }
    apply valid_ranges in V.
    cbn [Py.format]. rewrite !length_app.
    rewrite !two_digits_length by lia. reflexivity.
  - intros e E. unfold format_timestamp, Z_to_utc.
    cbn [bind try_except Py.str_method].
    destruct (PyStr.endswith_char PyStr.chr_Z s);
      cbn [bind try_except Py.str_method]; rewrite E; reflexivity.
Qed.

Lemma format_timestamp_clock_witness :
  Datetime.fromisoformat (lit "2024-05-06T17:08:09.250+05:30")
  = Ok (Datetime.mkdatetime 2024 5 6 17 8 9 250000 (Some 19800000000%Z))
  /\ format_timestamp (VStr (lit "2024-05-06T17:08:09.250+05:30"))
     = VStr (lit "17:08:09").
Proof.
  assert (E : Datetime.fromisoformat (lit "2024-05-06T17:08:09.250+05:30")
              = Ok (Datetime.mkdatetime 2024 5 6 17 8 9 250000
                                        (Some 19800000000%Z)))
    by (vm_compute; reflexivity).
  split; [exact E|].
  destruct (format_timestamp_clock (lit "2024-05-06T17:08:09.250+05:30"))
    as [H _].
  destruct (H _ E) as [-> _]. vm_compute. reflexivity.
Defined.

(* ===================================================================== *)
(** * File names of the downloaders *)
(* ===================================================================== *)

Lemma split_from_Forall (P : char -> Prop) (s cur : str) :
  Forall P cur -> Forall P s -> Forall (Forall P) (PyStr.split_from cur s).
Proof.
  revert cur. induction s as [|c s IH]; intros cur Hcur Hs; simpl.
  - destruct (empty cur); constructor; [|constructor].
    apply Forall_rev, Hcur.
  - inversion Hs as [|? ? Hc Hs']; subst.
    destruct (PyStr.isspace c).
    + destruct (empty cur); [apply IH; auto|].
      constructor; [apply Forall_rev, Hcur|apply IH; auto].
    + apply IH; auto.
Qed.

Lemma join_Forall (P : char -> Prop) (sep : str) (lines : list str) :
  Forall P sep -> Forall (Forall P) lines -> Forall P (PyStr.join sep lines).
Proof.
  intros Hsep. induction 1 as [|l rest Hl Hrest IH]; simpl; [constructor|].
  destruct rest as [|l' rest']; [exact Hl|].
  apply Forall_app. split; [exact Hl|].
  apply Forall_app. split; [exact Hsep|exact IH].
Qed.

Lemma Forall_and_tokens (s : str) :
  Forall (fun c => PyStr.mem c PyStr.unsafe_chars = false) s ->
  Forall (Forall (fun c => name_safe c = true)) (PyStr.split s).
Proof.
  intros H.
  pose proof (split_tokens s) as T.
  pose proof (split_from_Forall _ s [] (Forall_nil _) H) as U.
  fold (PyStr.split s) in U.
  induction (PyStr.split s) as [|t ts IH]; [constructor|].
  inversion T as [|? ? [_ Ht] Tts]; subst.
  inversion U as [|? ? Hu Uts]; subst.
  constructor; [|apply IH; assumption].
  clear -Ht Hu. induction t as [|c t IH]; [constructor|].
  inversion Ht; subst. inversion Hu; subst.
  constructor; [|apply IH; assumption].
  unfold name_safe. now rewrite H1, H3.
Qed.

Lemma download_name_shape (t : str) :
  let filename :=
    firstn 100
      (PyStr.strip_char Download.chr_underscore
         (PyStr.join (lit "_")
            (PyStr.split
               (filter (fun c => negb (PyStr.mem c PyStr.unsafe_chars)) t))))
  in
  Forall (fun c => name_safe c = true) filename
  /\ head_satisfies (N.eqb Download.chr_underscore) filename = false
  /\ (length filename <= 100)%nat.
Proof.
  intros filename. subst filename.
  set (x := PyStr.strip_char _ _).
  assert (Hx : Forall (fun c => name_safe c = true) x).
  { subst x. unfold PyStr.strip_char. apply strip_by_Forall.
    apply join_Forall; [repeat constructor|].
    apply Forall_and_tokens. apply Forall_forall. intros c Hc.
    apply filter_In in Hc as [_ Hc]. now apply negb_true_iff in Hc. }
  split; [|split].
  - rewrite <- (firstn_skipn 100 x) in Hx. apply Forall_app in Hx. tauto.
  - rewrite (firstn_head (N.eqb Download.chr_underscore) 99 x).
    subst x. apply strip_by_head.
  - apply firstn_le_length.
Qed.

Lemma download_sanitize_value (title : value) :
  title_ok title = true ->
  exists name,
    Download.sanitize_filename title = Ok name
    /\ name <> []
    /\ (length name <= 100)%nat
    /\ forallb name_safe name = true
    /\ head_satisfies (N.eqb Download.chr_underscore) name = false.
Proof.
  intros Hok. unfold Download.sanitize_filename.
  assert (U : lit "untitled" <> []
              /\ (length (lit "untitled") <= 100)%nat
              /\ forallb name_safe (lit "untitled") = true
              /\ head_satisfies (N.eqb Download.chr_underscore)
                                (lit "untitled") = false).
  { repeat split; try (vm_compute; reflexivity); [discriminate|].
    vm_compute. lia. }
  destruct title as [| |t]; simpl in Hok; try discriminate.
  - exists (lit "untitled"). split; [reflexivity|exact U].
  - cbn [Py.truthy]. destruct (empty t) eqn:Et; cbn [negb].
    + exists (lit "untitled"). split; [reflexivity|exact U].
    + cbn [Py.str_method bind].
      destruct (empty (PyStr.strip t)).
      * exists (lit "untitled"). split; [reflexivity|exact U].
      * destruct (download_name_shape t) as (Hs & Hh & Hl).
        cbv zeta in Hs, Hh, Hl. cbv zeta.
        set (filename := firstn 100 _) in *.
        destruct filename as [|c r] eqn:Ef.
        -- exists (lit "untitled"). split; [reflexivity|exact U].
        -- exists (c :: r). split; [reflexivity|].
           split; [discriminate|]. split; [exact Hl|]. split; [|exact Hh].
           apply forallb_forall, Forall_forall, Hs.
Qed.

(** X4.  For a title that is [null] or a string, [sanitize_filename] of
    the downloaders returns a name that is not empty, has at most 100
    characters, holds none of the nine invalid characters and no
    whitespace, and does not begin with an underscore.  A title that is
    [null], empty or only whitespace gives [untitled]; a title that is a
    non-zero integer raises [AttributeError]. *)
Theorem download_sanitize_filename_safe (title : value) :
  title_ok title = true ->
  (exists name,
     Download.sanitize_filename title = Ok name
     /\ name <> []
     /\ (length name <= 100)%nat
     /\ forallb name_safe name = true
     /\ head_satisfies (N.eqb Download.chr_underscore) name = false)
  /\ Download.sanitize_filename VNone = Ok (lit "untitled")
  /\ (forall t, PyStr.strip t = [] ->
                Download.sanitize_filename (VStr t) = Ok (lit "untitled"))
  /\ (forall z, z <> 0%Z ->
                Download.sanitize_filename (VInt z) = Raise AttributeError).
Proof.
  intros Hok. split; [apply download_sanitize_value, Hok|].
  split; [reflexivity|]. split.
  - intros t Ht. unfold Download.sanitize_filename. cbn [Py.truthy].
    destruct (empty t); [reflexivity|]. cbn [negb Py.str_method bind].
    rewrite Ht. reflexivity.
  - intros z Hz. unfold Download.sanitize_filename. cbn [Py.truthy].
    apply Z.eqb_neq in Hz. rewrite Hz. reflexivity.
Qed.

Lemma download_sanitize_filename_safe_witness :
  title_ok (VStr (lit " Plan: Q3/Q4  review_ ")) = true
  /\ exists name,
       Download.sanitize_filename (VStr (lit " Plan: Q3/Q4  review_ "))
       = Ok name
       /\ forallb name_safe name = true.
Proof.
  split; [reflexivity|].
  destruct (download_sanitize_filename_safe
              (VStr (lit " Plan: Q3/Q4  review_ ")) eq_refl)
    as [(name & E & _ & _ & Hs & _) _].
  exists name. split; [exact E|exact Hs].
Defined.

Lemma strftime_more_percent (d : char) (rest : str) (dt : Datetime.datetime) :
  DatetimeMore.strftime (PyStr.chr_percent :: d :: rest) dt =
  DatetimeMore.directive d dt ++ DatetimeMore.strftime rest dt.
Proof. reflexivity. Qed.

Lemma strftime_more_plain (c : char) (rest : str) (dt : Datetime.datetime) :
  (c =? PyStr.chr_percent)%N = false ->
  DatetimeMore.strftime (c :: rest) dt = c :: DatetimeMore.strftime rest dt.
Proof. intros H. simpl. rewrite H. reflexivity. Qed.

Lemma strftime_ymd (dt : Datetime.datetime) :
  DatetimeMore.strftime (lit "%Y-%m-%d") dt =
  PyStr.pad_left 4 (PyStr.of_Z (Datetime.year dt)) ++ lit "-"
  ++ Datetime.two_digits (Datetime.month dt) ++ lit "-"
  ++ Datetime.two_digits (Datetime.day dt).
Proof.
  let fmt := eval vm_compute in (lit "%Y-%m-%d") in
  change (lit "%Y-%m-%d") with fmt.
  repeat first [ rewrite strftime_more_percent
               | rewrite strftime_more_plain by reflexivity ].
  change (DatetimeMore.strftime [] dt) with (@nil char).
  rewrite app_nil_r. reflexivity.
Qed.

Lemma lit_cons (a : ascii) (s : string) :
  lit (String a s) = N_of_ascii a :: lit s.
Proof. reflexivity. Qed.

Lemma uint_chars_safe (d : Decimal.uint) :
  Forall (fun c => name_safe c = true) (lit (NilEmpty.string_of_uint d)).
Proof.
  induction d; simpl NilEmpty.string_of_uint;
    [constructor|rewrite lit_cons; constructor; [reflexivity|assumption]..].
Qed.

Lemma of_Z_chars_safe (z : Z) :
  Forall (fun c => name_safe c = true) (PyStr.of_Z z).
Proof.
  unfold PyStr.of_Z, NilZero.string_of_int, NilZero.string_of_uint.
  destruct (Z.to_int z) as [d|d].
  - destruct d; try apply uint_chars_safe. repeat constructor.
  - rewrite lit_cons. constructor; [reflexivity|].
    destruct d; try apply uint_chars_safe. repeat constructor.
Qed.

Lemma pad_left_chars_safe (n : nat) (s : str) :
  Forall (fun c => name_safe c = true) s ->
  Forall (fun c => name_safe c = true) (PyStr.pad_left n s).
Proof.
  intros H. unfold PyStr.pad_left. apply Forall_app. split; [|exact H].
  induction (n - length s)%nat; simpl; constructor; [reflexivity|assumption].
Qed.

Ltac safe_literal :=
  apply Forall_forall; apply forallb_forall; vm_compute; reflexivity.

Lemma strftime_ymd_safe (dt : Datetime.datetime) :
  Forall (fun c => name_safe c = true)
         (DatetimeMore.strftime (lit "%Y-%m-%d") dt).
Proof.
  rewrite strftime_ymd. unfold Datetime.two_digits.
  apply Forall_app; split; [apply pad_left_chars_safe, of_Z_chars_safe|].
  apply Forall_app; split; [safe_literal|].
  apply Forall_app; split; [apply pad_left_chars_safe, of_Z_chars_safe|].
  apply Forall_app; split; [safe_literal|].
  apply pad_left_chars_safe, of_Z_chars_safe.
Qed.

(** The date part of the name, in the three ways it comes about. *)
Lemma generate_filename_date (now : Datetime.datetime)
    (title created_at : value) :
  exists date,
    Download.generate_filename now title created_at
    = (sanitized_title <- Download.sanitize_filename title;;
       Ok (DatetimeMore.strftime (lit "%Y-%m-%d") date ++ lit "_"
           ++ sanitized_title ++ lit ".json"))
    /\ (date = now
        \/ exists s, created_at = VStr s /\ s <> []
             /\ Datetime.fromisoformat
                  (PyStr.replace_char PyStr.chr_Z (lit "+00:00") s)
                = Ok date).
Proof.
  unfold Download.generate_filename, Z_to_utc.
  destruct created_at as [|z|s]; cbn [Py.truthy].
  - exists now. split; [reflexivity|now left].
  - exists now. split; [|now left].
    destruct (negb (z =? 0)%Z); reflexivity.
  - destruct s as [|c s']; cbn [empty negb].
    + exists now. split; [reflexivity|now left].
    + cbn [Py.str_method bind].
      destruct (Datetime.fromisoformat _) as [dt|e] eqn:E.
      * exists dt. split; [reflexivity|]. right.
        exists (c :: s'). split; [reflexivity|]. split; [discriminate|exact E].
      * exists now. split; [reflexivity|now left].
Qed.

(** X5.  For every reading of the clock and every [created_at],
    [generate_filename] of a title that is [null] or a string returns a
    name of the form [<date>_<sanitized title>.json] in which no character
    is one of the nine invalid ones or whitespace.  In particular the name
    holds no slash and no backslash, so the file lands directly in the
    output directory. *)
Theorem generate_filename_safe (now : Datetime.datetime)
    (title created_at : value) :
  title_ok title = true ->
  exists date sanitized_title,
    Download.sanitize_filename title = Ok sanitized_title
    /\ Download.generate_filename now title created_at
       = Ok (DatetimeMore.strftime (lit "%Y-%m-%d") date ++ lit "_"
             ++ sanitized_title ++ lit ".json")
    /\ forallb name_safe
         (DatetimeMore.strftime (lit "%Y-%m-%d") date ++ lit "_"
          ++ sanitized_title ++ lit ".json") = true
    /\ PyStr.mem 47%N
         (DatetimeMore.strftime (lit "%Y-%m-%d") date ++ lit "_"
          ++ sanitized_title ++ lit ".json") = false
    /\ PyStr.mem 92%N
         (DatetimeMore.strftime (lit "%Y-%m-%d") date ++ lit "_"
          ++ sanitized_title ++ lit ".json") = false.
Proof.
  intros Hok.
  destruct (generate_filename_date now title created_at) as (date & E & _).
  destruct (download_sanitize_value title Hok) as (t & Et & _ & _ & Hs & _).
  exists date, t. split; [exact Et|].
  rewrite Et in E. split; [exact E|].
  set (name := DatetimeMore.strftime _ _ ++ _).
  assert (F : Forall (fun c => name_safe c = true) name).
  { subst name.
    apply Forall_app; split; [apply strftime_ymd_safe|].
    apply Forall_app; split; [safe_literal|].
    apply Forall_app; split; [|safe_literal].
    apply Forall_forall. apply forallb_forall, Hs. }
  split; [apply forallb_forall, Forall_forall, F|].
  split.
  - destruct (PyStr.mem 47%N name) eqn:M; [|reflexivity].
    apply existsb_exists in M as (c & Hc & Ec). apply N.eqb_eq in Ec.
    subst c. rewrite Forall_forall in F. specialize (F _ Hc). discriminate.
  - destruct (PyStr.mem 92%N name) eqn:M; [|reflexivity].
    apply existsb_exists in M as (c & Hc & Ec). apply N.eqb_eq in Ec.
    subst c. rewrite Forall_forall in F. specialize (F _ Hc). discriminate.
Qed.

Lemma generate_filename_safe_witness :
  title_ok (VStr (lit "../etc/passwd")) = true
  /\ exists name,
       Download.generate_filename clock_sample (VStr (lit "../etc/passwd"))
                                  (VStr (lit "2024-03-15T09:30:00Z"))
       = Ok name
       /\ PyStr.mem 47%N name = false.
Proof.
  split; [reflexivity|].
  destruct (generate_filename_safe clock_sample (VStr (lit "../etc/passwd"))
              (VStr (lit "2024-03-15T09:30:00Z")) eq_refl)
    as (date & t & _ & E & _ & H & _).
  eexists. split; [exact E|exact H].
Defined.

(** X6.  When [created_at] is [null], an integer, the empty string, or a
    string that does not parse, [generate_filename] dates the file with
    the clock: the name is [<today>_<sanitized title>.json], and no error
    comes from [created_at]. *)
Theorem generate_filename_today (now : Datetime.datetime)
    (title created_at : value) :
  title_ok title = true ->
  match created_at with
  | VStr s =>
      s = [] \/ exists e,
        Datetime.fromisoformat
          (PyStr.replace_char PyStr.chr_Z (lit "+00:00") s) = Raise e
  | _ => True
  end ->
  exists sanitized_title,
    Download.sanitize_filename title = Ok sanitized_title
    /\ Download.generate_filename now title created_at
       = Ok (DatetimeMore.strftime (lit "%Y-%m-%d") now ++ lit "_"
             ++ sanitized_title ++ lit ".json").
Proof.
  intros Hok Hc.
  destruct (download_sanitize_value title Hok) as (t & Et & _).
  exists t. split; [exact Et|].
  destruct (generate_filename_date now title created_at)
    as (date & E & [->|(s & -> & Hs & Ep)]).
  - rewrite E, Et. reflexivity.
  - destruct Hc as [->|[e He]]; [now elim Hs|congruence].
Qed.

Lemma generate_filename_today_witness :
  title_ok VNone = true
  /\ Download.generate_filename clock_sample VNone (VStr (lit "yesterday"))
     = Ok (lit "2025-06-30_untitled.json").
Proof.
  split; [reflexivity|].
  destruct (generate_filename_today clock_sample VNone
              (VStr (lit "yesterday")) eq_refl)
    as (t & Et & E).
  - right. exists ValueError. vm_compute. reflexivity.
  - rewrite E. inversion Et. vm_compute. reflexivity.
Defined.

(** ** The date of the name and the text of [created_at] *)

Lemma digit_inv (c : char) (d : Z) :
  Datetime.digit c = Some d ->
  (0 <= d <= 9)%Z /\ c = (48 + Z.to_N d)%N.
Proof.
  unfold Datetime.digit.
  destruct ((48 <=? c) && (c <=? 57))%N eqn:E; [|discriminate].
  apply andb_prop in E as [E1 E2].
  apply N.leb_le in E1, E2. intros H. inversion H. split; lia.
Qed.

Lemma parse_digits_S (n : nat) (acc : Z) (s : str) (v : Z) (rest : str) :
  Datetime.parse_digits (S n) acc s = Some (v, rest) ->
  exists c d t,
    s = c :: t /\ Datetime.digit c = Some d
    /\ Datetime.parse_digits n (acc * 10 + d) t = Some (v, rest).
Proof.
  simpl. destruct s as [|c t]; [discriminate|].
  destruct (Datetime.digit c) as [d|] eqn:E; [|discriminate].
  intros H. exists c, d, t. auto.
Qed.

Lemma decimal_digit_In (d : Z) : (0 <= d <= 9)%Z -> In d decimal_digits.
Proof.
  intros H.
  assert (d = 0 \/ d = 1 \/ d = 2 \/ d = 3 \/ d = 4 \/ d = 5 \/ d = 6
          \/ d = 7 \/ d = 8 \/ d = 9)%Z as C by lia.
  unfold decimal_digits. simpl. intuition auto.
Qed.

Lemma str_eqb_eq (a b : str) : str_eqb a b = true -> a = b.
Proof. unfold str_eqb. destruct (list_eq_dec N.eq_dec a b); congruence. Qed.

Lemma two_digits_render (a b : Z) :
  (0 <= a <= 9)%Z -> (0 <= b <= 9)%Z ->
  Datetime.two_digits (a * 10 + b)
  = [(48 + Z.to_N a)%N; (48 + Z.to_N b)%N].
Proof.
  intros Ha Hb.
  assert (H : forallb (fun a => forallb (fun b =>
                str_eqb (Datetime.two_digits (a * 10 + b))
                        [(48 + Z.to_N a)%N; (48 + Z.to_N b)%N])
                decimal_digits) decimal_digits = true)
    by (vm_compute; reflexivity).
  rewrite forallb_forall in H.
  specialize (H a (decimal_digit_In a Ha)).
  rewrite forallb_forall in H.
  apply str_eqb_eq, (H b (decimal_digit_In b Hb)).
Qed.

Lemma four_digits_render (a b c d : Z) :
  (0 <= a <= 9)%Z -> (0 <= b <= 9)%Z -> (0 <= c <= 9)%Z -> (0 <= d <= 9)%Z ->
  PyStr.pad_left 4 (PyStr.of_Z (((a * 10 + b) * 10 + c) * 10 + d))
  = [(48 + Z.to_N a)%N; (48 + Z.to_N b)%N;
     (48 + Z.to_N c)%N; (48 + Z.to_N d)%N].
Proof.
  intros Ha Hb Hc Hd.
  assert (H : forallb (fun a => forallb (fun b => forallb (fun c =>
                forallb (fun d =>
                  str_eqb
                    (PyStr.pad_left 4
                       (PyStr.of_Z
                          (((a * 10 + b) * 10 + c) * 10 + d)))
                    [(48 + Z.to_N a)%N; (48 + Z.to_N b)%N;
                     (48 + Z.to_N c)%N; (48 + Z.to_N d)%N])
                decimal_digits) decimal_digits) decimal_digits)
              decimal_digits = true)
    by (vm_compute; reflexivity).
  rewrite forallb_forall in H.
  specialize (H a (decimal_digit_In a Ha)). rewrite forallb_forall in H.
  specialize (H b (decimal_digit_In b Hb)). rewrite forallb_forall in H.
  specialize (H c (decimal_digit_In c Hc)). rewrite forallb_forall in H.
  apply str_eqb_eq, (H d (decimal_digit_In d Hd)).
Qed.

Lemma parse_isoformat_date_text (s : str) (y m d : Z) (rest : str) :
  Datetime.parse_isoformat_date s = Some (y, m, d, rest) ->
  firstn 10 s
  = PyStr.pad_left 4 (PyStr.of_Z y) ++ lit "-"
    ++ Datetime.two_digits m ++ lit "-" ++ Datetime.two_digits d
  /\ Forall (fun c => c <> Datetime.chr_plus) (firstn 10 s).
Proof.
  unfold Datetime.parse_isoformat_date.
  destruct (Datetime.parse_digits 4 0 s) as [[y' [|c1 s1]]|] eqn:Ey;
    try discriminate.
  destruct (c1 =? Datetime.chr_minus)%N eqn:E1; [|discriminate].
  destruct (Datetime.parse_digits 2 0 s1) as [[m' [|c2 s2]]|] eqn:Em;
    try discriminate.
  destruct (c2 =? Datetime.chr_minus)%N eqn:E2; [|discriminate].
  destruct (Datetime.parse_digits 2 0 s2) as [[d' rest']|] eqn:Ed;
    [|discriminate].
  intros H. inversion H; subst y' m' d' rest'. clear H.
  apply N.eqb_eq in E1, E2. subst c1 c2.
  apply parse_digits_S in Ey as (a1 & v1 & t1 & -> & D1 & Ey).
  apply parse_digits_S in Ey as (a2 & v2 & t2 & -> & D2 & Ey).
  apply parse_digits_S in Ey as (a3 & v3 & t3 & -> & D3 & Ey).
  apply parse_digits_S in Ey as (a4 & v4 & t4 & -> & D4 & Ey).
  cbn [Datetime.parse_digits] in Ey. inversion Ey; subst y t4. clear Ey.
  apply parse_digits_S in Em as (b1 & w1 & u1 & -> & M1 & Em).
  apply parse_digits_S in Em as (b2 & w2 & u2 & -> & M2 & Em).
  cbn [Datetime.parse_digits] in Em. inversion Em; subst m u2. clear Em.
  apply parse_digits_S in Ed as (e1 & x1 & r1 & -> & F1 & Ed).
  apply parse_digits_S in Ed as (e2 & x2 & r2 & -> & F2 & Ed).
  cbn [Datetime.parse_digits] in Ed. inversion Ed; subst d r2. clear Ed.
  apply digit_inv in D1 as [R1 ->], D2 as [R2 ->], D3 as [R3 ->],
    D4 as [R4 ->], M1 as [Q1 ->], M2 as [Q2 ->], F1 as [P1 ->],
    F2 as [P2 ->].
  split.
  - rewrite four_digits_render, !two_digits_render by assumption.
    reflexivity.
  - unfold Datetime.chr_plus, Datetime.chr_minus.
    cbn [firstn]. repeat constructor; lia.
Qed.

Lemma fromisoformat_date (s : str) (dt : Datetime.datetime) :
  Datetime.fromisoformat s = Ok dt ->
  exists rest,
    Datetime.parse_isoformat_date s
    = Some (Datetime.year dt, Datetime.month dt, Datetime.day dt, rest).
Proof.
  unfold Datetime.fromisoformat, Datetime.parse_isoformat.
  destruct (Datetime.parse_isoformat_date s) as [[[[y m] d] rest]|];
    [|discriminate].
  destruct rest as [|sep tstr].
  - destruct (Datetime.valid _); [|discriminate].
    intros H. inversion H. exists []. reflexivity.
  - destruct (Datetime.parse_isoformat_time tstr)
      as [[[[[hh mm] ss] us] tz]|]; [|discriminate].
    destruct (Datetime.valid _); [|discriminate].
    intros H. inversion H. exists (sep :: tstr). reflexivity.
Qed.

Lemma fromisoformat_ymd (s : str) (dt : Datetime.datetime) :
  Datetime.fromisoformat s = Ok dt ->
  DatetimeMore.strftime (lit "%Y-%m-%d") dt = firstn 10 s.
Proof.
  intros H. apply fromisoformat_date in H as [rest H].
  apply parse_isoformat_date_text in H as [H _].
  rewrite strftime_ymd, H. reflexivity.
Qed.

Lemma replace_Z_prefix (n : nat) (s : str) :
  Forall (fun c => c <> Datetime.chr_plus)
         (firstn n (PyStr.replace_char PyStr.chr_Z (lit "+00:00") s)) ->
  firstn n (PyStr.replace_char PyStr.chr_Z (lit "+00:00") s) = firstn n s.
Proof.
  revert s. induction n as [|n IH]; intros s H; [reflexivity|].
  destruct s as [|c t]; [reflexivity|].
  unfold PyStr.replace_char in *. cbn [flat_map] in *.
  destruct (c =? PyStr.chr_Z)%N.
  - exfalso. inversion H as [|? ? Hc _]. now apply Hc.
  - cbn [app firstn] in *. inversion H; subst. f_equal. now apply IH.
Qed.

Lemma generate_filename_parsed (now : Datetime.datetime) (title : value)
    (s : str) (dt : Datetime.datetime) :
  Datetime.fromisoformat
    (PyStr.replace_char PyStr.chr_Z (lit "+00:00") s) = Ok dt ->
  Download.generate_filename now title (VStr s)
  = (sanitized_title <- Download.sanitize_filename title;;
     Ok (DatetimeMore.strftime (lit "%Y-%m-%d") dt ++ lit "_"
         ++ sanitized_title ++ lit ".json")).
Proof.
  intros E. unfold Download.generate_filename, Z_to_utc.
  destruct s as [|c r]; [vm_compute in E; discriminate|].
  cbn [Py.truthy empty negb Py.str_method bind].
  rewrite E. reflexivity.
Qed.

(** X7.  When [created_at] begins with a date written [YYYY-MM-DD] and
    parses once every [Z] is replaced by [+00:00], the date part of the
    name given by [generate_filename] is the first ten characters of
    [created_at] as they stand: the name is
    [<created_at[:10]>_<sanitized title>.json].  (A date in another
    form, which later versions of the library also parse, is outside the
    statement.  The year is taken to have four significant digits;
    smaller years are written differently by some C libraries.) *)
Theorem generate_filename_date_prefix (now : Datetime.datetime)
    (title : value) (s : str) (dt : Datetime.datetime) :
  title_ok title = true ->
  extended_date s = true ->
  Datetime.fromisoformat
    (PyStr.replace_char PyStr.chr_Z (lit "+00:00") s) = Ok dt ->
  (1000 <= Datetime.year dt)%Z ->
  exists sanitized_title,
    Download.sanitize_filename title = Ok sanitized_title
    /\ Download.generate_filename now title (VStr s)
       = Ok (firstn 10 s ++ lit "_" ++ sanitized_title ++ lit ".json").
Proof.
  intros Hok _ E _.
  destruct (download_sanitize_value title Hok) as (t & Et & _).
  exists t. split; [exact Et|].
  assert (P : firstn 10 (PyStr.replace_char PyStr.chr_Z (lit "+00:00") s)
              = firstn 10 s).
  { apply replace_Z_prefix.
    destruct (fromisoformat_date _ _ E) as [rest H].
    apply parse_isoformat_date_text in H as [_ H]. exact H. }
  rewrite (generate_filename_parsed now title s dt E), Et. cbn [bind].
  rewrite (fromisoformat_ymd _ _ E), P. reflexivity.
Qed.

Lemma generate_filename_date_prefix_witness :
  title_ok (VStr (lit "Plan: Q3/Q4 ")) = true
  /\ Download.generate_filename clock_sample (VStr (lit "Plan: Q3/Q4 "))
                                (VStr (lit "2001-02-03T04:05:06.000Z"))
     = Ok (lit "2001-02-03_Plan_Q3Q4.json").
Proof.
  split; [reflexivity|].
  destruct (generate_filename_date_prefix clock_sample
              (VStr (lit "Plan: Q3/Q4 ")) (lit "2001-02-03T04:05:06.000Z")
              (Datetime.mkdatetime 2001 2 3 4 5 6 0 (Some 0%Z)) eq_refl)
    as (t & Et & E).
  - vm_compute. reflexivity.
  - vm_compute. reflexivity.
  - simpl. lia.
  - rewrite E. inversion Et. vm_compute. reflexivity.
Defined.

(* ===================================================================== *)
(** * The date filter of the downloaders *)
(* ===================================================================== *)

Lemma ge_naive_aware (doc_date cutoff : Datetime.datetime) :
  naive cutoff = true -> naive doc_date = false ->
  DatetimeMore.ge doc_date cutoff = Raise TypeError.
Proof.
  unfold naive, DatetimeMore.ge, DatetimeMore.cmp.
  destruct (Datetime.tzinfo doc_date), (Datetime.tzinfo cutoff);
    try discriminate. reflexivity.
Qed.

Lemma keeps_aware (cutoff : Datetime.datetime) (doc : Download.document) :
  naive cutoff = true -> aware_created_at doc = true ->
  Download.keeps cutoff doc = true.
Proof.
  intros Hc Ha. unfold aware_created_at in Ha. unfold Download.keeps, Z_to_utc.
  destruct (Download.created_at doc) as [[| |s]|]; try discriminate.
  cbn [Py.get Py.truthy].
  destruct (Datetime.fromisoformat _) as [dt|] eqn:E; [|discriminate].
  destruct s as [|c r]; [vm_compute in E; discriminate|].
  cbn [empty negb Py.str_method bind]. rewrite E. cbn [bind].
  rewrite (ge_naive_aware dt cutoff Hc); [reflexivity|].
  now apply negb_true_iff in Ha.
Qed.

(** X8.  The cutoff of the date filter is a naive datetime, and comparing
    it with a datetime that has a UTC offset raises [TypeError], which the
    loop catches by keeping the document.  So a document whose
    [created_at] carries an offset passes the filter whatever its date,
    and a list of such documents comes back unchanged. *)
Theorem filter_keeps_aware_documents (cutoff : Datetime.datetime)
    (documents : list Download.document) :
  naive cutoff = true ->
  forallb aware_created_at documents = true ->
  Download.filter_documents_by_date documents (Some cutoff) = documents.
Proof.
  intros Hc H. unfold Download.filter_documents_by_date.
  induction documents as [|doc rest IH]; [reflexivity|].
  simpl in H. apply andb_prop in H as [Hd H].
  simpl. rewrite (keeps_aware cutoff doc Hc Hd). f_equal. apply IH, H.
Qed.

Lemma filter_keeps_aware_documents_witness :
  naive clock_sample = true
  /\ forallb aware_created_at [doc_utc] = true
  /\ Download.filter_documents_by_date [doc_utc] (Some clock_sample)
     = [doc_utc].
Proof.
  split; [reflexivity|]. split; [vm_compute; reflexivity|].
  apply (filter_keeps_aware_documents clock_sample [doc_utc]).
  - reflexivity.
  - vm_compute. reflexivity.
Defined.

Lemma keeps_undated (cutoff : Datetime.datetime) (doc : Download.document) :
  undated doc = true -> Download.keeps cutoff doc = false.
Proof.
  unfold undated, Download.keeps. intros H.
  apply negb_true_iff in H. rewrite H. reflexivity.
Qed.

Lemma keeps_unparseable (cutoff : Datetime.datetime)
    (doc : Download.document) :
  unparseable doc = true -> Download.keeps cutoff doc = true.
Proof.
  unfold unparseable, Download.keeps, Z_to_utc.
  destruct (Download.created_at doc) as [[|z|s]|]; try discriminate;
    cbn [Py.get Py.truthy].
  - intros ->. reflexivity.
  - intros H. apply andb_prop in H as [-> H].
    cbn [Py.str_method bind].
    destruct (Datetime.fromisoformat _); [discriminate|reflexivity].
Qed.

(** X9.  With a cutoff, the date filter drops every document whose
    [created_at] is absent, [null] or empty, and keeps every document
    whose [created_at] is a non-empty string that does not parse or a
    non-zero integer: the result is the input list, in its order, less
    some documents, none of the undated ones is in it and all of the
    unparseable ones are. *)
Theorem filter_undated_and_unparseable (cutoff : Datetime.datetime)
    (documents : list Download.document) :
  forall doc,
    (In doc (Download.filter_documents_by_date documents (Some cutoff)) ->
     In doc documents /\ undated doc = false)
    /\ (In doc documents -> unparseable doc = true ->
        In doc (Download.filter_documents_by_date documents (Some cutoff))).
Proof.
  intros doc. unfold Download.filter_documents_by_date. split.
  - intros H. apply filter_In in H as [Hin Hk]. split; [exact Hin|].
    destruct (undated doc) eqn:U; [|reflexivity].
    rewrite (keeps_undated cutoff doc U) in Hk. discriminate.
  - intros Hin Hu. apply filter_In. split; [exact Hin|].
    apply keeps_unparseable, Hu.
Qed.

Lemma filter_undated_and_unparseable_witness :
  In doc_bad_date [doc_undated; doc_bad_date]
  /\ unparseable doc_bad_date = true
  /\ In doc_bad_date
        (Download.filter_documents_by_date [doc_undated; doc_bad_date]
                                           (Some clock_sample)).
Proof.
  assert (Hin : In doc_bad_date [doc_undated; doc_bad_date])
    by (right; left; reflexivity).
  assert (Hu : unparseable doc_bad_date = true) by (vm_compute; reflexivity).
  split; [exact Hin|]. split; [exact Hu|].
  exact (proj2 (filter_undated_and_unparseable clock_sample
                  [doc_undated; doc_bad_date] doc_bad_date) Hin Hu).
Defined.

(* ===================================================================== *)
(** * Errors of the document *)
(* ===================================================================== *)

Lemma generate_markdown_raises (data : transcript_data) :
  texts_ok (entries_of data) = false ->
  generate_markdown data = Raise AttributeError.
Proof.
  intros H. rewrite generate_markdown_parts.
  unfold get_transcript_stats.
  destruct (entries_of data) as [|first rest] eqn:E; [discriminate|].
  cbn [empty]. rewrite (stats_loop_raises _ H). reflexivity.
Qed.

(** X10.  [generate_markdown] returns the document exactly when the text
    of every entry is a string or is missing.  Otherwise it raises
    [AttributeError], and it raises no other exception: no value of the
    title, the dates, the document id, the sources, the speakers, the
    timestamps or the sequence numbers makes it fail. *)
Theorem generate_markdown_raises_only_on_text (data : transcript_data) :
  (texts_ok (entries_of data) = true <->
   exists md, generate_markdown data = Ok md)
  /\ (texts_ok (entries_of data) = false <->
      generate_markdown data = Raise AttributeError)
  /\ (forall e, generate_markdown data = Raise e -> e = AttributeError).
Proof.
  destruct (texts_ok (entries_of data)) eqn:T.
  - destruct (generate_markdown_returns data T) as (st & body & _ & _ & E).
    rewrite E. split; [|split].
    + split; [eauto|reflexivity].
    + split; discriminate.
    + discriminate.
  - rewrite (generate_markdown_raises data T). split; [|split].
    + split; [discriminate|]. intros [md H]. discriminate.
    + split; reflexivity.
    + intros e H. inversion H. reflexivity.
Qed.

Lemma generate_markdown_raises_only_on_text_witness :
  texts_ok (entries_of record_null_text) = false
  /\ generate_markdown record_null_text = Raise AttributeError.
Proof.
  split; [reflexivity|].
  apply (proj1 (proj1 (proj2 (generate_markdown_raises_only_on_text
                                record_null_text)))).
  reflexivity.
Defined.

(* ===================================================================== *)
(** * The order of the entries does not matter to the figures *)
(* ===================================================================== *)

Lemma forallb_Permutation (A : Type) (p : A -> bool) (l l' : list A) :
  Permutation l l' -> forallb p l = forallb p l'.
Proof.
  induction 1; simpl; try congruence.
  - destruct (p x), (p y); reflexivity.
Qed.

Lemma total_tokens_Permutation (l l' : list entry) :
  Permutation l l' -> total_tokens l = total_tokens l'.
Proof.
  induction 1; rewrite ?total_tokens_cons; lia.
Qed.

Lemma distinct_speakers_Permutation (l l' : list entry) :
  Permutation l l' ->
  length (distinct_speakers l) = length (distinct_speakers l').
Proof.
  intros P. apply Permutation_length.
  apply NoDup_Permutation; try apply NoDup_nodup.
  intros name. unfold distinct_speakers. rewrite !nodup_In.
  split; apply Permutation_in; [|apply Permutation_sym];
    apply Permutation_map, P.
Qed.

Lemma get_transcript_stats_raises (entries : list entry) :
  texts_ok entries = false ->
  get_transcript_stats entries = Raise AttributeError.
Proof.
  intros H. unfold get_transcript_stats.
  destruct entries as [|first rest]; [discriminate|].
  cbn [empty]. rewrite (stats_loop_raises _ H). reflexivity.
Qed.

(** X11.  The statistics do not depend on the order of the entries: two
    lists with the same entries in different orders give the same
    [total_entries], [speakers] and [words], or raise the same error.  In
    particular the statistics of the raw list are those of the list as
    sorted for the transcript body. *)
Theorem get_transcript_stats_order_independent (entries entries' : list entry) :
  Permutation entries entries' ->
  get_transcript_stats entries' = get_transcript_stats entries.
Proof.
  intros P. pose proof (forallb_Permutation _ (fun e => str_field (text e))
                          _ _ P) as T.
  fold (texts_ok entries) in T. fold (texts_ok entries') in T.
  destruct (texts_ok entries) eqn:E.
  - rewrite (get_transcript_stats_value entries E).
    rewrite (get_transcript_stats_value entries') by congruence.
    rewrite (Permutation_length P), (distinct_speakers_Permutation _ _ P),
      (total_tokens_Permutation _ _ P). reflexivity.
  - rewrite (get_transcript_stats_raises entries E).
    apply get_transcript_stats_raises. congruence.
Qed.

Lemma get_transcript_stats_order_independent_witness :
  Permutation [entry_b2; entry_a1] [entry_a1; entry_b2]
  /\ get_transcript_stats [entry_a1; entry_b2]
     = get_transcript_stats [entry_b2; entry_a1].
Proof.
  assert (P : Permutation [entry_b2; entry_a1] [entry_a1; entry_b2])
    by apply perm_swap.
  split; [exact P|].
  exact (get_transcript_stats_order_independent _ _ P).
Defined.

Lemma str_ltb_antisym (a b : str) :
  PyStr.ltb a b = false -> PyStr.ltb b a = false -> a = b.
Proof.
  revert b. induction a as [|x a IH]; intros [|y b]; simpl;
    try congruence.
  destruct (N.ltb_spec x y), (N.ltb_spec y x), (N.eqb_spec x y),
    (N.eqb_spec y x); simpl; try lia; try congruence.
  intros H1 H2. f_equal; auto.
Qed.

Lemma present_Permutation (key : entry -> option value)
    (l l' : list entry) :
  Permutation l l' -> Permutation (present key l) (present key l').
Proof.
  unfold present. induction 1; simpl.
  - constructor.
  - destruct (Py.truthy _); [constructor|]; assumption.
  - destruct (Py.truthy (Py.get (key x) VNone)),
      (Py.truthy (Py.get (key y) VNone));
      try apply perm_swap; apply Permutation_refl.
  - eapply perm_trans; eassumption.
Qed.

Lemma str_minimum_unique (m m' : str) (l l' : list value) :
  Permutation l l' -> str_minimum m l -> str_minimum m' l' -> m = m'.
Proof.
  intros P [Hin Hall] [Hin' Hall'].
  apply str_ltb_antisym.
  - apply Hall'. apply (Permutation_in _ P), Hin.
  - apply Hall. apply (Permutation_in _ (Permutation_sym P)), Hin'.
Qed.

Lemma str_maximum_unique (m m' : str) (l l' : list value) :
  Permutation l l' -> str_maximum m l -> str_maximum m' l' -> m = m'.
Proof.
  intros P [Hin Hall] [Hin' Hall'].
  apply str_ltb_antisym.
  - apply Hall. apply (Permutation_in _ (Permutation_sym P)), Hin'.
  - apply Hall'. apply (Permutation_in _ P), Hin.
Qed.

Lemma calculate_duration_unknown (entries : list entry) :
  present start_timestamp entries = []
  \/ present end_timestamp entries = [] ->
  calculate_duration entries = lit "Unknown".
Proof.
  unfold calculate_duration, calculate_duration_try.
  intros [E|E]; rewrite E; destruct (empty entries); try reflexivity.
  cbn [empty]. rewrite orb_true_r. reflexivity.
Qed.

(** X12.  For structurally valid entries the duration does not depend on
    the order of the entries: it is made from the least start and the
    greatest end, and these are the same however the list is arranged. *)
Theorem calculate_duration_order_independent (entries entries' : list entry) :
  forallb entry_ok entries = true ->
  Permutation entries entries' ->
  calculate_duration entries' = calculate_duration entries.
Proof.
  intros Hok P.
  assert (Hok' : forallb entry_ok entries' = true)
    by (rewrite <- (forallb_Permutation _ entry_ok _ _ P); exact Hok).
  pose proof (present_Permutation start_timestamp _ _ P) as Ps.
  pose proof (present_Permutation end_timestamp _ _ P) as Pe.
  destruct (present start_timestamp entries) as [|s0 ss] eqn:Es.
  { apply Permutation_nil in Ps.
    rewrite (calculate_duration_unknown entries) by auto.
    apply calculate_duration_unknown. auto. }
  destruct (present end_timestamp entries) as [|e0 es] eqn:Ee.
  { apply Permutation_nil in Pe.
    rewrite (calculate_duration_unknown entries) by auto.
    apply calculate_duration_unknown. auto. }
  assert (Ns : present start_timestamp entries <> [])
    by (rewrite Es; discriminate).
  assert (Ne : present end_timestamp entries <> [])
    by (rewrite Ee; discriminate).
  assert (Ns' : present start_timestamp entries' <> []).
  { intros C. rewrite C in Ps. apply Permutation_sym, Permutation_nil in Ps.
    discriminate. }
  assert (Ne' : present end_timestamp entries' <> []).
  { intros C. rewrite C in Pe. apply Permutation_sym, Permutation_nil in Pe.
    discriminate. }
  rewrite <- Es in Ps. rewrite <- Ee in Pe.
  destruct (entries_ok_timestamps entries Hok) as [Fs Fe].
  destruct (entries_ok_timestamps entries' Hok') as [Fs' Fe'].
  destruct (min_strings _ (present_strings start_timestamp _ Fs) Ns)
    as (m & Em & Hm).
  destruct (max_strings _ (present_strings end_timestamp _ Fe) Ne)
    as (x & Ex & Hx).
  destruct (min_strings _ (present_strings start_timestamp _ Fs') Ns')
    as (m' & Em' & Hm').
  destruct (max_strings _ (present_strings end_timestamp _ Fe') Ne')
    as (x' & Ex' & Hx').
  rewrite (calculate_duration_chosen entries m x Ns Ne Em Ex).
  rewrite (calculate_duration_chosen entries' m' x' Ns' Ne' Em' Ex').
  rewrite (str_minimum_unique m m' _ _ Ps Hm Hm').
  rewrite (str_maximum_unique x x' _ _ Pe Hx Hx'). reflexivity.
Qed.

Lemma calculate_duration_order_independent_witness :
  forallb entry_ok [entry_span; entry_25_hours] = true
  /\ Permutation [entry_span; entry_25_hours] [entry_25_hours; entry_span]
  /\ calculate_duration [entry_25_hours; entry_span]
     = calculate_duration [entry_span; entry_25_hours].
Proof.
  assert (P : Permutation [entry_span; entry_25_hours]
                          [entry_25_hours; entry_span]) by apply perm_swap.
  split; [reflexivity|]. split; [exact P|].
  exact (calculate_duration_order_independent
           [entry_span; entry_25_hours] [entry_25_hours; entry_span]
           eq_refl P).
Defined.

(* ===================================================================== *)
(** * Lines of the body and entries of the statistics *)
(* ===================================================================== *)

Lemma format_lines_length (l : list entry) :
  Forall (fun e => str_field (text e) = true) l ->
  exists lines,
    format_lines l = Ok lines
    /\ length lines = length (filter (fun e => negb (blank e)) l).
Proof.
  induction 1 as [|e l He Hl (lines & IH & Hlen)]; simpl.
  - exists []. split; reflexivity.
  - rewrite IH. unfold format_entry, blank.
    destruct (text e) as [[| |s]|]; simpl in He; try discriminate;
      cbn [Py.get Py.str_method bind].
    + destruct (empty (PyStr.strip s)); cbn [negb bind].
      * exists lines. split; [reflexivity|exact Hlen].
      * destruct (Py.truthy _); cbn [bind]; eexists;
          (split; [reflexivity|]); simpl; now rewrite Hlen.
    + change (PyStr.strip []) with (@nil char). cbn [empty negb bind].
      exists lines. split; [reflexivity|exact Hlen].
Qed.

Lemma filter_length_Permutation (A : Type) (p : A -> bool) (l l' : list A) :
  Permutation l l' -> length (filter p l) = length (filter p l').
Proof.
  induction 1; simpl; try congruence.
  - destruct (p x); simpl; congruence.
  - destruct (p x), (p y); reflexivity.
Qed.

Lemma filter_split_length (A : Type) (p : A -> bool) (l : list A) :
  length l
  = (length (filter (fun x => negb (p x)) l) + length (filter p l))%nat.
Proof.
  induction l as [|x l IH]; simpl; [reflexivity|].
  destruct (p x); simpl; lia.
Qed.

(** X13.  When the text of every entry is a string or is missing, the body
    holds exactly one line for each entry whose text is not blank, while
    [total_entries] counts every entry: the statistics exceed the number
    of lines of the body by the number of blank entries. *)
Theorem body_lines_and_total_entries (entries : list entry) :
  texts_ok entries = true ->
  exists sorted_entries lines st,
    sort_entries entries = Ok sorted_entries
    /\ format_lines sorted_entries = Ok lines
    /\ format_transcript_entries entries
       = Ok (if empty entries then lit "*No transcript available*"
             else PyStr.join (PyStr.nl ++ PyStr.nl) lines)
    /\ get_transcript_stats entries = Ok st
    /\ length lines = length (filter (fun e => negb (blank e)) entries)
    /\ total_entries st
       = (Z.of_nat (length lines)
          + Z.of_nat (length (filter blank entries)))%Z.
Proof.
  intros H.
  destruct (sort_entries_total entries) as (l & El & Pl).
  destruct (format_lines_length l) as (lines & Elines & Hlen).
  { apply (Permutation_Forall Pl), texts_ok_Forall, H. }
  rewrite <- (filter_length_Permutation _ _ _ _ Pl) in Hlen.
  exists l, lines. eexists.
  split; [exact El|]. split; [exact Elines|]. split.
  - unfold format_transcript_entries. destruct (empty entries);
      [reflexivity|]. rewrite El. cbn [bind]. rewrite Elines. reflexivity.
  - split; [apply (get_transcript_stats_value entries H)|].
    split; [exact Hlen|]. cbn [total_entries].
    rewrite Hlen, (filter_split_length _ blank entries). lia.
Qed.

Lemma body_lines_and_total_entries_witness :
  texts_ok [entry_bob; entry_spaces; entry_mic] = true
  /\ exists lines st,
       format_transcript_entries [entry_bob; entry_spaces; entry_mic]
       = Ok (PyStr.join (PyStr.nl ++ PyStr.nl) lines)
       /\ get_transcript_stats [entry_bob; entry_spaces; entry_mic] = Ok st
       /\ length lines = 2%nat
       /\ total_entries st = 3%Z.
Proof.
  split; [reflexivity|].
  destruct (body_lines_and_total_entries
              [entry_bob; entry_spaces; entry_mic] eq_refl)
    as (l & lines & st & _ & _ & Eb & Es & Hlen & Ht).
  exists lines, st. split; [exact Eb|]. split; [exact Es|].
  split; [exact Hlen|]. rewrite Ht, Hlen. reflexivity.
Defined.

(* ===================================================================== *)
(** * More on the order of the entries *)
(* ===================================================================== *)

Section SortedErrors.
Variable A : Type.
Variable key : A -> value.

Lemma insert_None_raises (x : A) (l : list A) :
  l <> [] ->
  key x = VNone \/ (exists y, l = [y] /\ key y = VNone) ->
  Py.insert key x l = Raise TypeError.
Proof.
  intros Hne H. destruct l as [|y l']; [now elim Hne|]. simpl.
  destruct H as [Hx|(y' & E & Hy)].
  - rewrite Hx. destruct (key y); reflexivity.
  - inversion E; subst. rewrite Hy. reflexivity.
Qed.

(** [sorted] fails on a list of two or more items as soon as one key is
    [None]. *)
Lemma sorted_None_raises (l : list A) :
  (2 <= length l)%nat -> (exists x, In x l /\ key x = VNone) ->
  Py.sorted key l = Raise TypeError.
Proof.
  induction l as [|x l IH]; intros Hlen (n & Hin & Hn); [inversion Hin|].
  simpl in *.
  destruct (Py.sorted key l) as [r|e] eqn:Er.
  - cbn [bind]. pose proof (sorted_Permutation A key _ _ Er) as Pr.
    apply insert_None_raises.
    + intros ->. apply Permutation_sym, Permutation_nil in Pr.
      subst l. simpl in Hlen. lia.
    + destruct Hin as [->|Hin]; [now left|].
      destruct l as [|y [|z l'']].
      * inversion Hin.
      * right. exists y. destruct Hin as [Hy|Hf]; [subst y|inversion Hf].
        simpl in Er. split; [congruence|exact Hn].
      * exfalso.
        assert (C : Ok r = Raise TypeError); [|discriminate C].
        apply IH; [simpl; lia|].
        exists n. split; [exact Hin|exact Hn].
  - cbn [bind]. apply sorted_only_TypeError in Er. now subst e.
Qed.
End SortedErrors.

(** X14.  [sort_entries] never raises and always returns the entries
    rearranged, whatever their keys hold.  When the comparison of the keys
    fails, the order of the input is kept: this is so when the first entry
    has the key [sequence_number], the list has two or more entries, and
    some entry holds [null] under that key. *)
Theorem sort_entries_keeps_order_on_error (first : entry) (rest : list entry) :
  (exists sorted_entries,
     sort_entries (first :: rest) = Ok sorted_entries
     /\ Permutation (first :: rest) sorted_entries)
  /\ (Py.contains (sequence_number first) = true ->
      rest <> [] ->
      (exists e, In e (first :: rest) /\ sequence_number e = Some VNone) ->
      sort_entries (first :: rest) = Ok (first :: rest)).
Proof.
  split; [apply sort_entries_total|].
  intros Hc Hrest (e & Hin & He).
  unfold sort_entries. rewrite Hc.
  rewrite (sorted_None_raises entry
             (fun x => Py.get (sequence_number x) (VInt 0))); [reflexivity| |].
  - destruct rest; [now elim Hrest|simpl; lia].
  - exists e. split; [exact Hin|]. now rewrite He.
Qed.

Lemma sort_entries_keeps_order_on_error_witness :
  sort_entries [entry_b2;
                mkentry None None None None None (Some VNone);
                entry_a1]
  = Ok [entry_b2; mkentry None None None None None (Some VNone); entry_a1].
Proof.
  apply (proj2 (sort_entries_keeps_order_on_error entry_b2
           [mkentry None None None None None (Some VNone); entry_a1])).
  - reflexivity.
  - discriminate.
  - eexists. split; [right; left; reflexivity|reflexivity].
Defined.

(** X15.  The sort of the entries is stable.  When the first entry has
    the key [sequence_number], the entries that share a sequence number
    stand in the result in the order they had in the input; when it has
    not but has the key [start_timestamp], the same holds for the entries
    that share a start timestamp. *)
Theorem sort_entries_stable (first : entry) (rest sorted_entries : list entry)
    (v : value) :
  sort_entries (first :: rest) = Ok sorted_entries ->
  (Py.contains (sequence_number first) = true ->
   filter (fun e => Py.eqb (Py.get (sequence_number e) (VInt 0)) v)
          sorted_entries
   = filter (fun e => Py.eqb (Py.get (sequence_number e) (VInt 0)) v)
            (first :: rest))
  /\ (Py.contains (sequence_number first) = false ->
      Py.contains (start_timestamp first) = true ->
      filter (fun e => Py.eqb (Py.get (start_timestamp e) (VStr [])) v)
             sorted_entries
      = filter (fun e => Py.eqb (Py.get (start_timestamp e) (VStr [])) v)
               (first :: rest)).
Proof.
  unfold sort_entries. intros H. split.
  - intros Hc. rewrite Hc in H.
    destruct (Py.sorted _ (first :: rest)) as [l|e] eqn:E.
    + inversion H; subst l.
      apply (sorted_stable entry
               (fun x => Py.get (sequence_number x) (VInt 0)) v _ _ E).
    + apply sorted_only_TypeError in E. subst e. inversion H. reflexivity.
  - intros Hc Ht. rewrite Hc, Ht in H.
    destruct (Py.sorted _ (first :: rest)) as [l|e] eqn:E.
    + inversion H; subst l.
      apply (sorted_stable entry
               (fun x => Py.get (start_timestamp x) (VStr [])) v _ _ E).
    + apply sorted_only_TypeError in E. subst e. inversion H. reflexivity.
Qed.

Lemma sort_entries_stable_witness :
  sort_entries [entry_b2; entry_a1;
                mkentry (Some (VStr (lit "c"))) None None None None
                        (Some (VInt 1))]
  = Ok [entry_a1;
        mkentry (Some (VStr (lit "c"))) None None None None (Some (VInt 1));
        entry_b2]
  /\ filter (fun e => Py.eqb (Py.get (sequence_number e) (VInt 0)) (VInt 1))
       [entry_a1;
        mkentry (Some (VStr (lit "c"))) None None None None (Some (VInt 1));
        entry_b2]
     = [entry_a1;
        mkentry (Some (VStr (lit "c"))) None None None None (Some (VInt 1))].
Proof.
  assert (E : sort_entries
                [entry_b2; entry_a1;
                 mkentry (Some (VStr (lit "c"))) None None None None
                         (Some (VInt 1))]
              = Ok [entry_a1;
                    mkentry (Some (VStr (lit "c"))) None None None None
                            (Some (VInt 1));
                    entry_b2]) by (vm_compute; reflexivity).
  split; [exact E|].
  rewrite (proj1 (sort_entries_stable _ _ _ (VInt 1) E) eq_refl).
  vm_compute. reflexivity.
Defined.

(* ===================================================================== *)
(** * The batch driver of the converter *)
(* ===================================================================== *)



(** The outcomes of one conversion for the output directory: nothing
    changes, or the output file is written, full when the text can be
    encoded and empty when it cannot. *)
Lemma convert_transcript_file_cases (json : Convert.json_file)
    (out : str) (force : bool) (fs : Convert.files) :
  Convert.convert_transcript_file json out force fs = (false, fs)
  \/ exists data md,
       Convert.loaded json = Some data
       /\ generate_markdown data = Ok md
       /\ (Convert.path_exists out fs && negb force = false)
       /\ Convert.convert_transcript_file json out force fs
          = (Convert.encodable md,
             Convert.write out (if Convert.encodable md then md else []) fs).
Proof.
  unfold Convert.convert_transcript_file.
  destruct (Convert.path_exists out fs && negb force) eqn:E; [now left|].
  destruct (Convert.loaded json) as [data|]; [|now left].
  destruct (generate_markdown data) as [md|] eqn:G; [|now left].
  right. exists data, md.
  destruct (Convert.encodable md); auto.
Qed.





Lemma convert_loop_counts (json_files : list Convert.json_file)
    (force : bool) :
  forall fs c,
    let c' := fst (Convert.convert_loop json_files force fs c) in
    (Convert.converted_count c' + Convert.skipped_count c'
     + Convert.error_count c'
     = Convert.converted_count c + Convert.skipped_count c
       + Convert.error_count c + Z.of_nat (length json_files))%Z
    /\ (force = true -> Convert.skipped_count c' = Convert.skipped_count c).
Proof.
  induction json_files as [|json rest IH]; intros fs c; cbv zeta.
  - simpl. split; [lia|reflexivity].
  - cbn [Convert.convert_loop].
    destruct (Convert.convert_transcript_file json _ force fs)
      as [result fs'].
    match goal with
    | |- context [Convert.convert_loop rest force fs' ?c1] =>
        destruct (IH fs' c1) as [Hsum Hskip]; cbv zeta in Hsum, Hskip;
        set (cn := c1) in *
    end.
    split.
    + rewrite Hsum. subst cn.
      destruct result; [|destruct (_ && _)]; cbn [Convert.converted_count
        Convert.skipped_count Convert.error_count length]; lia.
    + intros ->. rewrite (Hskip eq_refl). subst cn.
      destruct result; [reflexivity|]. rewrite andb_false_r. reflexivity.
Qed.

(** X17.  The summary of the batch accounts for every input file exactly
    once: converted, skipped and errors add up to the number of input
    files.  With [--force] nothing is counted as skipped. *)
Theorem convert_counts_add_up (json_files : list Convert.json_file)
    (force : bool) (fs : Convert.files) :
  let c := fst (Convert.convert_transcripts json_files force fs) in
  (Convert.converted_count c + Convert.skipped_count c
   + Convert.error_count c = Z.of_nat (length json_files))%Z
  /\ (force = true -> Convert.skipped_count c = 0%Z).
Proof.
  cbv zeta. unfold Convert.convert_transcripts.
  destruct (convert_loop_counts json_files force fs (Convert.mkcounts 0 0 0))
    as [Hsum Hskip]. cbv zeta in Hsum, Hskip.
  split; [rewrite Hsum; simpl; lia|exact Hskip].
Qed.

Lemma convert_counts_add_up_witness :
  Convert.skipped_count
    (fst (Convert.convert_transcripts
            [json_plan; json_plan_again; json_broken] true [])) = 0%Z.
Proof.
  apply (proj2 (convert_counts_add_up
                  [json_plan; json_plan_again; json_broken] true [])).
  reflexivity.
Defined.

Lemma convert_loop_provenance (json_files : list Convert.json_file)
    (force : bool) :
  forall fs c name content,
    In (name, content) (snd (Convert.convert_loop json_files force fs c)) ->
    In (name, content) fs
    \/ exists json data md,
         In json json_files
         /\ Convert.loaded json = Some data
         /\ name = sanitize_filename (Convert.stem json) ++ lit ".md"
         /\ generate_markdown data = Ok md
         /\ (content = md /\ Convert.encodable md = true
             \/ content = [] /\ Convert.encodable md = false).
Proof.
  induction json_files as [|json rest IH]; intros fs c name content H.
  - now left.
  - cbn [Convert.convert_loop] in H.
    set (out := sanitize_filename (Convert.stem json) ++ lit ".md") in *.
    destruct (convert_transcript_file_cases json out force fs)
      as [E|(data & md & Hl & Hg & _ & E)]; rewrite E in H;
      apply IH in H as [H|(j & d & m & Hin & Hr)].
    + now left.
    + right. exists j, d, m. split; [now right|exact Hr].
    + destruct H as [H|H]; [|now left].
      inversion H; subst. right. exists json, data, md.
      split; [now left|]. split; [exact Hl|]. split; [reflexivity|].
      split; [exact Hg|].
      destruct (Convert.encodable md); [left|right]; auto.
    + right. exists j, d, m. split; [now right|exact Hr].
Qed.

(** X18.  Whatever the batch leaves in the output directory was there
    before or comes from one of the inputs whose record renders: the file
    is named [<sanitize_filename(stem)>.md], and it holds what
    [generate_markdown] returned for that record when that text can be
    encoded, and nothing when it cannot, for the file is opened before
    the text is encoded.  An input that cannot be read or rendered leaves
    no file. *)
Theorem convert_writes_only_markdown (json_files : list Convert.json_file)
    (force : bool) (fs : Convert.files) (name content : str) :
  In (name, content)
     (snd (Convert.convert_transcripts json_files force fs)) ->
  In (name, content) fs
  \/ exists json data md,
       In json json_files
       /\ Convert.loaded json = Some data
       /\ name = sanitize_filename (Convert.stem json) ++ lit ".md"
       /\ generate_markdown data = Ok md
       /\ (content = md /\ Convert.encodable md = true
           \/ content = [] /\ Convert.encodable md = false).
Proof. apply convert_loop_provenance. Qed.

Lemma convert_writes_only_markdown_witness :
  In (lit "s.md", @nil char)
     (snd (Convert.convert_transcripts [json_broken; json_surrogate]
             false []))
  /\ (In (lit "s.md", @nil char) []
      \/ exists json data md,
           In json [json_broken; json_surrogate]
           /\ Convert.loaded json = Some data
           /\ lit "s.md" = sanitize_filename (Convert.stem json) ++ lit ".md"
           /\ generate_markdown data = Ok md
           /\ (@nil char = md /\ Convert.encodable md = true
               \/ @nil char = [] /\ Convert.encodable md = false)).
Proof.
  assert (H : In (lit "s.md", @nil char)
                 (snd (Convert.convert_transcripts
                         [json_broken; json_surrogate] false [])))
    by (left; vm_compute; reflexivity).
  split; [exact H|].
  exact (convert_writes_only_markdown _ _ _ _ _ H).
Defined.
